(** * autogen-example: the market-research swarm of [swarm.py]

    A shallow embedding of the two tool bodies of [swarm.py]
    ([get_stock_data], [get_news]), of the agent roster built by [main],
    and of the hand-off orchestration the roster is handed to.

    Conventions.
    - A Python [str] is a [string]; every [ascii] is one character (a code
      point below 256), so [String.length] is Python's [len].  The
      non-ASCII literals of the source (the system messages and the task)
      are held UTF-8 encoded; the only thing ever done with them is a
      search for an ASCII pattern.
    - The libraries the tools call ([yfinance], [serpapi], [datetime],
      [os]) are not part of the repository: they are the fields of a
      [World], each call either returning a value or raising.
    - [print] appends a line to an explicit standard output and does not
      fail.
    - What is raised is an instance of [Exception].  [KeyboardInterrupt]
      and [SystemExit], which no [except Exception] clause is meant to
      stop, are outside the model. *)

From Stdlib Require Import ZArith Ascii String List Bool Lia.
From stdpp Require Import base option list strings gmap.

Local Open Scope string_scope.

(** ** Python values and exceptions *)

(** The values the tools put in their result dictionaries.  A float is
    carried by its 64-bit pattern: no definition below computes with it. *)
Inductive PyVal : Type :=
  | PyNone
  | PyInt (z : Z)
  | PyFloat (bits : Z)
  | PyStr (s : string).

(** An instance of Python's [Exception]: what [except Exception as e]
    binds.  [str(e)] is [exc_msg]. *)
Record Exception : Type := mkException {
  exc_type : string;
  exc_msg : string
}.

(** [str(e)] *)
Definition str (e : Exception) : string := exc_msg e.

(** The result of evaluating an expression: a value, or a raised
    exception. *)
Inductive outcome (A : Type) : Type :=
  | Return (a : A)
  | Raise (e : Exception).
Arguments Return {A} a.
Arguments Raise {A} e.

(** Sequencing of two expressions: the second is not evaluated when the
    first raises. *)
Definition obind {A B} (x : outcome A) (k : A -> outcome B) : outcome B :=
  match x with
  | Return a => k a
  | Raise e => Raise e
  end.

(** ** Statements with output

    A block of statements runs against the lines printed so far and
    finishes with a value or a raised exception. *)
Module Py.

Definition stdout : Type := list string.

Definition t (A : Type) : Type := stdout -> outcome A * stdout.

Definition ret {A} (a : A) : t A := fun out => (Return a, out).

Definition raise {A} (e : Exception) : t A := fun out => (Raise e, out).

Definition bind {A B} (m : t A) (k : A -> t B) : t B :=
  fun out =>
    match m out with
    | (Return a, out') => k a out'
    | (Raise e, out') => (Raise e, out')
    end.

(** An expression of a library, evaluated inside a block. *)
Definition eval {A} (x : outcome A) : t A := fun out => (x, out).

Definition print (line : string) : t unit :=
  fun out => (Return tt, (out ++ [line])%list).

(** [try: body  except Exception as e: handler e] *)
Definition try_except {A} (body : t A) (handler : Exception -> t A) : t A :=
  fun out =>
    match body out with
    | (Return a, out') => (Return a, out')
    | (Raise e, out') => handler e out'
    end.

End Py.

Declare Scope py_scope.
Delimit Scope py_scope with py.
Notation "'do' x <- m ; k" := (Py.bind m (fun x => k))
  (at level 10, x name, m at level 100, k at level 200) : py_scope.
Notation "'exec' m ; k" := (Py.bind m (fun _ => k))
  (at level 10, m at level 100, k at level 200) : py_scope.

(** ** The libraries behind the tools *)

(** A [pandas.DataFrame]: its row labels and its named columns. *)
Record DataFrame : Type := mkDataFrame {
  df_index : list string;
  df_columns : list (string * list PyVal)
}.

(** [df.empty]: some axis has length 0. *)
Definition df_empty (df : DataFrame) : bool :=
  match df_index df, df_columns df with
  | [], _ => true
  | _, [] => true
  | _, _ => false
  end.

Fixpoint column_lookup (name : string) (cols : list (string * list PyVal))
  : option (list PyVal) :=
  match cols with
  | [] => None
  | (k, v) :: rest => if String.eqb k name then Some v else column_lookup name rest
  end.

(** [df[name]] *)
Definition df_getitem (df : DataFrame) (name : string) : outcome (list PyVal) :=
  match column_lookup name (df_columns df) with
  | Some col => Return col
  | None => Raise (mkException "KeyError" name)
  end.

(** [series.iloc[-1]] *)
Definition iloc_last (series : list PyVal) : outcome PyVal :=
  match last series with
  | Some v => Return v
  | None => Raise (mkException "IndexError" "single positional indexer is out-of-bounds")
  end.

(** A [yfinance.Ticker] object: [history(period=...)] and the [info]
    property both go to the network. *)
Record Ticker : Type := mkTicker {
  history : string -> outcome DataFrame;
  info : outcome (gmap string PyVal)
}.

Record datetime : Type := mkDatetime {
  year : Z; month : Z; day : Z;
  hour : Z; minute : Z; second : Z
}.

(** One article of a [google_news] answer, and the answer itself.  A field
    is [None] when the key is absent from the JSON object. *)
Record NewsSource : Type := mkNewsSource {
  src_name : option string;
  src_authors : option (list string)
}.

Record Article : Type := mkArticle {
  art_title : option string;
  art_source : option NewsSource;
  art_snippet : option string;
  art_description : option string;
  art_link_text : option string;
  art_date : option string
}.

Record SearchResults : Type := mkSearchResults {
  news_results : option (list Article)
}.

Record SearchParams : Type := mkSearchParams {
  engine : string;
  q : string;
  gl : string;
  hl : string;
  api_key : option string;
  num : Z
}.

Record World : Type := mkWorld {
  (** [yf.Ticker(symbol)] *)
  yf_Ticker : string -> outcome Ticker;
  (** [datetime.now()] *)
  datetime_now : datetime;
  (** [d.strftime(fmt)] *)
  strftime : datetime -> string -> string;
  (** [datetime.strptime(s, fmt)] *)
  strptime : string -> string -> outcome datetime;
  (** [os.getenv(name)] *)
  os_getenv : string -> option string;
  (** [GoogleSearch(params).get_dict()] *)
  GoogleSearch_get_dict : SearchParams -> outcome SearchResults
}.

(** ** [get_stock_data] *)

(** [d.get(key)] on an [info] dictionary: [None] for a missing key. *)
Definition dict_get (d : gmap string PyVal) (key : string) : PyVal :=
  default PyNone (d !! key).

Section StockData.
Context (w : World).
Local Open Scope py_scope.

(** The body of the [try]. *)
Definition get_stock_data_try (symbol : string) : Py.t (gmap string PyVal) :=
  do stock <- Py.eval (yf_Ticker w symbol);
  do price_info <- Py.eval (history stock "1d");
  do current_price <-
    (if negb (df_empty price_info)
     then Py.eval (obind (df_getitem price_info "Close") iloc_last)
     else Py.ret PyNone);
  do info <- Py.eval (info stock);
  Py.ret (<["price" := current_price]>
          (<["volume" := dict_get info "regularMarketVolume"]>
           (<["pe_ratio" := dict_get info "forwardPE"]>
            (<["market_cap" := dict_get info "marketCap"]>
             (<["last_updated" :=
                  PyStr (strftime w (datetime_now w) "%Y-%m-%d %H:%M:%S")]> ∅))))).

(** The [except Exception as e] clause. *)
Definition get_stock_data_except (symbol : string) (e : Exception)
  : Py.t (gmap string PyVal) :=
  exec Py.print ("Error fetching stock data for " +:+ symbol +:+ ": " +:+ str e);
  Py.ret (<["price" := PyNone]>
          (<["volume" := PyNone]>
           (<["pe_ratio" := PyNone]>
            (<["market_cap" := PyNone]>
             (<["error" := PyStr (str e)]> ∅))))).

(** Lines 32-72. *)
Definition get_stock_data (symbol : string) : Py.t (gmap string PyVal) :=
  Py.try_except (get_stock_data_try symbol) (get_stock_data_except symbol).

End StockData.

(** ** String methods used by [get_news] *)

(** [c.isspace()] for a character below 256: the ASCII white space, the
    four separators 28..31, NEL (133) and the no-break space (160). *)
Definition py_isspace (c : ascii) : bool :=
  let n := nat_of_ascii c in
  (((9 <=? n) && (n <=? 13)) || ((28 <=? n) && (n <=? 32))
   || (n =? 133) || (n =? 160))%nat.

Fixpoint lstrip (s : string) : string :=
  match s with
  | EmptyString => EmptyString
  | String c s' => if py_isspace c then lstrip s' else s
  end.

Fixpoint rstrip (s : string) : string :=
  match s with
  | EmptyString => EmptyString
  | String c s' =>
      match rstrip s' with
      | EmptyString => if py_isspace c then EmptyString else String c EmptyString
      | r => String c r
      end
  end.

(** [s.strip()] *)
Definition strip (s : string) : string := rstrip (lstrip s).

(** [s.split(",")[0]]: the part of [s] before its first comma, all of [s]
    when it has none. *)
Fixpoint before_comma (s : string) : string :=
  match s with
  | EmptyString => EmptyString
  | String c s' => if Ascii.eqb c "," then EmptyString else String c (before_comma s')
  end.

(** [sep.join(parts)] *)
Fixpoint join (sep : string) (parts : list string) : string :=
  match parts with
  | [] => EmptyString
  | [p] => p
  | p :: rest => p +:+ sep +:+ join sep rest
  end.

(** Truth value of a [str]: non-empty. *)
Definition truthy (s : string) : bool :=
  match s with
  | EmptyString => false
  | String _ _ => true
  end.

(** [max(best :: rest, key=len)]: the first element of greatest length. *)
Fixpoint max_by_len (best : string) (rest : list string) : string :=
  match rest with
  | [] => best
  | s :: rest' =>
      if (String.length best <? String.length s)%nat
      then max_by_len s rest'
      else max_by_len best rest'
  end.

(** [s.startswith(p)] *)
Fixpoint startswith (s p : string) : bool :=
  match p, s with
  | EmptyString, _ => true
  | String a p', String b s' => Ascii.eqb a b && startswith s' p'
  | String _ _, EmptyString => false
  end.

(** ** [get_news] *)

Section News.
Context (w : World).
Local Open Scope py_scope.

(** Lines 77-84: [params]. *)
Definition news_params (query : string) : SearchParams :=
  {| engine := "google_news";
     q := query;
     gl := "us";
     hl := "en";
     api_key := os_getenv w "SERPAPI_KEY";
     num := 3 |}.

(** Lines 104-106: the summary before the author text is added. *)
Definition choose_summary (title snippet description link_text : string) : string :=
  match filter (fun s => truthy s = true) [snippet; description; link_text] with
  | [] => title
  | s :: rest => max_by_len s rest
  end.

(** Lines 109-117: the inner [try] with its bare [except]. *)
Definition format_date (date_str : string) : string :=
  match
    (if truthy date_str
     then obind (strptime w (before_comma date_str) "%m/%d/%Y")
            (fun date_obj => Return (strftime w date_obj "%Y-%m-%d"))
     else Return (strftime w (datetime_now w) "%Y-%m-%d"))
  with
  | Return formatted_date => formatted_date
  | Raise _ => date_str
  end.

(** One pass of the [for] loop: the dictionary appended for [article]. *)
Definition news_item (article : Article) : gmap string string :=
  let title := strip (default "" (art_title article)) in
  let source := default (mkNewsSource None None) (art_source article) in
  let source_name := default "" (src_name source) in
  let authors := default [] (src_authors source) in
  let author_text :=
    match authors with
    | [] => ""
    | _ :: _ => "By " +:+ join ", " authors
    end in
  let snippet := default "" (art_snippet article) in
  let description := default "" (art_description article) in
  let link_text := default "" (art_link_text article) in
  let summary := choose_summary title snippet description link_text in
  let date_str := default "" (art_date article) in
  let formatted_date := format_date date_str in
  <["title" := title]>
    (<["date" := formatted_date]>
      (<["summary" := strip (summary +:+ " " +:+ author_text)]>
        (<["source" := source_name]> ∅))).

(** Lines 87-128: the body of the outer [try]. *)
Definition get_news_try (query : string) : Py.t (list (gmap string string)) :=
  do results <- Py.eval (GoogleSearch_get_dict w (news_params query));
  Py.ret (map news_item (default [] (news_results results))).

(** Lines 130-132: the [except Exception as e] clause. *)
Definition get_news_except (e : Exception) : Py.t (list (gmap string string)) :=
  exec Py.print ("Error fetching news: " +:+ str e);
  Py.ret [].

(** Lines 75-132. *)
Definition get_news (query : string) : Py.t (list (gmap string string)) :=
  Py.try_except (get_news_try query) get_news_except.

End News.

(** The values [article.get(key, "")] reads for one article: the stripped
    title, the three texts a summary is chosen from, the date string. *)
Definition article_title (article : Article) : string :=
  strip (default "" (art_title article)).

Definition article_texts (article : Article) : list string :=
  [default "" (art_snippet article); default "" (art_description article);
   default "" (art_link_text article)].

Definition article_date (article : Article) : string :=
  default "" (art_date article).

(** ** [main]: the roster and the team *)

(** [AssistantAgent(name, handoffs=..., tools=..., system_message=...)];
    [tools] holds the names of the tool functions. *)
Record AssistantAgent : Type := mkAssistantAgent {
  name : string;
  handoffs : list string;
  tools : list string;
  system_message : string
}.

Definition planner : AssistantAgent :=
  {| name := "planner";
     handoffs := ["financial_analyst"; "news_analyst"; "writer"];
     tools := [];
     system_message := "你是一名研究规划协调员。
        通过委派给专业智能体来协调市场研究：
        - 金融分析师：负责股票数据分析
        - 新闻分析师：负责新闻收集和分析
        - 撰写员：负责编写最终报告
        始终先发送你的计划，然后再移交给适当的智能体。
        每次只能移交给一个智能体。
        当研究完成时使用 TERMINATE 结束。" |}.

Definition financial_analyst : AssistantAgent :=
  {| name := "financial_analyst";
     handoffs := ["planner"];
     tools := ["get_stock_data"];
     system_message := "你是一名金融分析师。
        使用 get_stock_data 工具分析股市数据。
        提供金融指标的深入见解。
        分析完成后务必移交回规划协调员。" |}.

Definition news_analyst : AssistantAgent :=
  {| name := "news_analyst";
     handoffs := ["planner"];
     tools := ["get_news"];
     system_message := "你是一名新闻分析师。
        使用 get_news 工具收集和分析相关新闻。
        总结新闻中的关键市场见解。
        分析完成后务必移交回规划协调员。" |}.

Definition writer : AssistantAgent :=
  {| name := "writer";
     handoffs := ["planner"];
     tools := [];
     system_message := "你是一名财经报告撰写员。
        将研究发现编译成清晰简洁的报告。
        撰写完成后务必移交回规划协调员。" |}.

(** [TextMentionTermination(text)] *)
Record TextMentionTermination : Type := mkTextMentionTermination {
  termination_text : string
}.

(** [Swarm(participants=..., termination_condition=...)] *)
Record Swarm : Type := mkSwarm {
  participants : list AssistantAgent;
  termination_condition : TextMentionTermination
}.

Definition text_termination : TextMentionTermination :=
  mkTextMentionTermination "TERMINATE".

Definition research_team : Swarm :=
  {| participants := [planner; financial_analyst; news_analyst; writer];
     termination_condition := text_termination |}.

Definition task : string := "为特斯拉(TSLA)股票进行市场研究，并用中文回答".

(** The names a team registers, and the two checks on a hand-off list. *)
Definition participant_names (team : Swarm) : list string :=
  map name (participants team).

Definition handoffs_registered (team : Swarm) (a : AssistantAgent) : bool :=
  forallb (fun target => bool_decide (target ∈ participant_names team)) (handoffs a).

Definition no_self_handoff (a : AssistantAgent) : bool :=
  negb (bool_decide (name a ∈ handoffs a)).

(** [p in s]: [p] occurs in [s] as a contiguous run of characters, compared
    character by character. *)
Fixpoint contains (s p : string) : bool :=
  startswith s p ||
  match s with
  | EmptyString => false
  | String _ s' => contains s' p
  end.

(** ** The orchestration engine

    [Swarm(...)], [TextMentionTermination] and [run_stream] are classes of
    [autogen_agentchat]; the engine behind them is absent from [src/].
    It is modelled here from the design document, section by section. *)

Module SwarmOrchestrator.

(** Modelled from the spec: 3, [AgentName], a string identifier; the
    engine itself is absent from [src/]. *)
Definition AgentName : Type := string.

(** Modelled from the spec: 3, the name of a tool of the [ToolCatalog]. *)
Definition ToolName : Type := string.

(** Modelled from the spec: 3, [Agent]: "{name, allowedHandoffTargets: set
    of AgentName, allowedTools: set of ToolName, systemPrompt: Text}". *)
Record Agent : Type := mkAgent {
  agentName : AgentName;
  allowedHandoffTargets : gset AgentName;
  allowedTools : gset ToolName;
  systemPrompt : string
}.

(** Modelled from the spec: 3, [ToolCall]: "{toolName, arguments: mapping,
    callId}". *)
Record ToolCall : Type := mkToolCall {
  toolName : ToolName;
  arguments : gmap string string;
  callId : nat
}.

(** Modelled from the spec: 7, the kinds of [RecoverableToolFailure]. *)
Inductive ErrorKind : Type :=
  | ToolNotAllowed
  | ToolNotFound
  | ToolExecutionError (detail : string)
  | ToolTimeout.

(** Modelled from the spec: 3, [ToolResult]: "{callId, result |
    errorKind}". *)
Record ToolResult : Type := mkToolResult {
  resultCallId : nat;
  resultBody : gmap string string + ErrorKind
}.

(** Modelled from the spec: 3, the content of a [Message]: "Text |
    ToolCall | ToolResult | HandoffDirective", and the two messages the
    engine writes itself: the "error Message" of 4.1(d) for an
    [InvalidTarget], and the "warning-level note" of 4.2 for the hand-off
    targets it ignores. *)
Inductive Content : Type :=
  | Text (t : string)
  | Call (c : ToolCall)
  | Result (r : ToolResult)
  | HandoffDirective (target : AgentName)
  | Error (invalidTarget : AgentName)
  | Warning (ignoredTargets : list AgentName).

(** Modelled from the spec: 3, "recipient: AgentName | Broadcast". *)
Inductive Recipient : Type :=
  | To (a : AgentName)
  | Broadcast.

(** Modelled from the spec: 3, [Message].  [id] is the position in the
    transcript ("ordered by append sequence"); [timestamp], wall-clock
    time, is left out. *)
Record Message : Type := mkMessage {
  id : nat;
  sender : AgentName;
  recipient : Recipient;
  content : Content
}.

(** Modelled from the spec: 3, [ConversationState]: "{transcript,
    activeAgent, turnCount, terminated}", with the flag of 7 ("a terminal
    ConversationState flagged as aborted"). *)
Record ConversationState : Type := mkState {
  transcript : list Message;
  activeAgent : AgentName;
  turnCount : nat;
  terminated : bool;
  aborted : bool
}.

(** Modelled from the spec: 3 and 4.4, [TerminationCondition]: the three
    variants, and their combination "with OR semantics". *)
Inductive TerminationCondition : Type :=
  | TextMention (pattern : string)
  | External (signal : bool)
  | TurnLimit (max : nat)
  | AnyOf (c1 c2 : TerminationCondition).

(** Modelled from the spec: 4.4, [TextMention]: "terminated when any
    Message content (case policy: exact substring match) contains pattern.
    Triggered by the agent's own text, not by the user task."  The task is
    the message a run opens with (4.1, step 1), the one of [id] 0. *)
Definition mentions (pattern : string) (m : Message) : bool :=
  match content m with
  | Text t => negb (Nat.eqb (id m) 0) && contains t pattern
  | _ => false
  end.

(** Modelled from the spec: 4.4, each condition "a pure predicate over
    ConversationState"; [TurnLimit]: "terminated when turnCount >= max". *)
Fixpoint satisfied (c : TerminationCondition) (st : ConversationState) : bool :=
  match c with
  | TextMention pattern => existsb (mentions pattern) (transcript st)
  | External signal => signal
  | TurnLimit max => (max <=? turnCount st)%nat
  | AnyOf c1 c2 => satisfied c1 st || satisfied c2 st
  end.

(** Modelled from the spec: 6, the reply of the model client: it "may
    embed zero or more ToolCall requests and/or a HandoffDirective and/or
    free text"; the directive may name several targets (4.2). *)
Record Reply : Type := mkReply {
  replyText : option string;
  replyToolCalls : list ToolCall;
  replyHandoff : list AgentName
}.

(** Modelled from the spec: 6, [complete] "fails with ModelUnavailable or
    ModelTimeout". *)
Inductive ModelAnswer : Type :=
  | Replied (r : Reply)
  | ModelUnavailable
  | ModelTimeout.

(** Modelled from the spec: 4.2, "HandoffOutcome {Stay, TransferTo,
    InvalidTarget}". *)
Inductive HandoffOutcome : Type :=
  | Stay
  | TransferTo (target : AgentName)
  | InvalidTarget (target : AgentName).

(** Modelled from the spec: 4.2, [route]: a pure function; "if a reply
    names multiple handoff targets, only the first is honored"; 4.1(d):
    "validate the target is in the issuing agent's allowedHandoffTargets". *)
Definition route (reply : Reply) (issuingAgent : Agent) : HandoffOutcome :=
  match replyHandoff reply with
  | [] => Stay
  | target :: _ =>
      if bool_decide (target ∈ allowedHandoffTargets issuingAgent)
      then TransferTo target
      else InvalidTarget target
  end.

(** Modelled from the spec: 6, what a tool body does when called: it
    returns a mapping, raises, or overruns the per-call timeout of 4.3. *)
Inductive ToolRun : Type :=
  | Returned (result : gmap string string)
  | Raised (detail : string)
  | Overran.

(** Modelled from the spec: 4.3, [invoke]: [ToolNotAllowed], then
    [ToolNotFound], then the body; "exactly one ToolResult is produced per
    ToolCall, even on failure". *)
Definition invoke (call : ToolCall)
    (catalog : gmap ToolName (gmap string string -> ToolRun))
    (allowed : gset ToolName) : ToolResult :=
  mkToolResult (callId call)
    (if bool_decide (toolName call ∈ allowed)
     then match catalog !! toolName call with
          | None => inr ToolNotFound
          | Some body =>
              match body (arguments call) with
              | Returned result => inl result
              | Raised detail => inr (ToolExecutionError detail)
              | Overran => inr ToolTimeout
              end
          end
     else inr ToolNotAllowed).

(** Modelled from the spec: 3, "all registered agent names". *)
Definition agentNames (agents : list Agent) : list AgentName :=
  map agentName agents.

(** Modelled from the spec: the construction-time check of 3 and 7: "no
    two agents share a name"; "allowedHandoffTargets must be a subset of
    all registered agent names (self-loops disallowed)". *)
Definition wellConfigured (agents : list Agent) : bool :=
  bool_decide (NoDup (agentNames agents)) &&
  forallb (fun a =>
             bool_decide (set_Forall (fun target => target ∈ agentNames agents)
                            (allowedHandoffTargets a)) &&
             negb (bool_decide (agentName a ∈ allowedHandoffTargets a)))
          agents.

(** Modelled from the spec: the registry of 3, looked up by name. *)
Fixpoint findAgent (n : AgentName) (agents : list Agent) : option Agent :=
  match agents with
  | [] => None
  | a :: rest => if String.eqb (agentName a) n then Some a else findAgent n rest
  end.

Section Run.
Context (complete : list Message -> Agent -> nat -> ModelAnswer).
Context (catalog : gmap ToolName (gmap string string -> ToolRun)).
Context (retryBudget : nat).
Context (agents : list Agent).
Context (termination : TerminationCondition).

(** Modelled from the spec: 3, the transcript is "mutated only by
    appending"; the new message takes the next position as its [id]. *)
Definition append (from : AgentName) (to : Recipient) (c : Content)
    (ms : list Message) : list Message :=
  ms ++ [mkMessage (length ms) from to c].

(** Modelled from the spec: 4.1(c) and 5, several messages of one turn,
    appended in issuance order. *)
Definition appendAll (from : AgentName) (cs : list Content)
    (ms : list Message) : list Message :=
  fold_left (fun acc c => append from Broadcast c acc) cs ms.

(** Modelled from the spec: 6, a failed model call is retried, the same
    turn, "up to an implementation-defined bounded count". *)
Fixpoint askModel (ms : list Message) (a : Agent) (attempt budget : nat)
  : option Reply :=
  match complete ms a attempt with
  | Replied r => Some r
  | _ =>
      match budget with
      | O => None
      | S budget' => askModel ms a (S attempt) budget'
      end
  end.

(** Modelled from the spec: 4.1, steps (b) to (f) for one reply of the
    active agent.  Every message of the turn is sent by that agent (3: a
    sender is a registered [AgentName]).  (c): with tool calls in the
    reply, calls and results are appended and "the agent is re-invoked
    with the updated transcript before any handoff is evaluated".  (d):
    otherwise the hand-off is routed; a transfer appends the directive and
    changes the active agent, an invalid target appends the error message
    and keeps it.  (e), (f): the turn is counted and the termination
    condition evaluated "against the updated state". *)
Definition takeTurn (st : ConversationState) (a : Agent) (reply : Reply)
  : ConversationState :=
  let spoken :=
    match replyText reply with
    | Some t => append (agentName a) Broadcast (Text t) (transcript st)
    | None => transcript st
    end in
  let '(ms, next) :=
    match replyToolCalls reply with
    | _ :: _ =>
        let called := appendAll (agentName a) (map Call (replyToolCalls reply)) spoken in
        (appendAll (agentName a)
           (map (fun c => Result (invoke c catalog (allowedTools a)))
                (replyToolCalls reply))
           called,
         activeAgent st)
    | [] =>
        let noted :=
          match replyHandoff reply with
          | _ :: (_ :: _) as ignored =>
              append (agentName a) Broadcast (Warning ignored) spoken
          | _ => spoken
          end in
        match route reply a with
        | Stay => (noted, activeAgent st)
        | TransferTo target =>
            (append (agentName a) (To target) (HandoffDirective target) noted, target)
        | InvalidTarget target =>
            (append (agentName a) Broadcast (Error target) noted, activeAgent st)
        end
    end in
  let st' := mkState ms next (S (turnCount st)) false (aborted st) in
  mkState ms next (S (turnCount st)) (satisfied termination st') (aborted st).

(** Modelled from the spec: 7, the fatal outcome: the run is aborted and
    "returns a terminal ConversationState flagged as aborted". *)
Definition abort (st : ConversationState) : ConversationState :=
  mkState (transcript st) (activeAgent st) (turnCount st) true true.

(** Modelled from the spec: 4.1, one pass of the loop of step 2: the
    active agent's model client is asked (a), with the retries of 6, and
    its reply is acted on. *)
Definition step (st : ConversationState) : ConversationState :=
  match findAgent (activeAgent st) agents with
  | None => abort st
  | Some a =>
      match askModel (transcript st) a 0 retryBudget with
      | None => abort st
      | Some reply => takeTurn st a reply
      end
  end.

(** Modelled from the spec: 4.1, step 1: "a single Message carrying task,
    activeAgent = initialAgent, turnCount = 0"; a malformed configuration
    is fatal (7).  The task message is entered under the name of the
    initial agent: a sender is an [AgentName], which "must exist in the
    AgentRegistry" (3), step 1 names no other agent, and in the one-agent
    scenario of 8 ("task message, ToolCall, ToolResult, agent text") the
    registry holds no other name. *)
Definition initial (task : string) (initialAgent : AgentName) : ConversationState :=
  let st := mkState (append initialAgent (To initialAgent) (Text task) [])
              initialAgent 0 false false in
  if wellConfigured agents && bool_decide (initialAgent ∈ agentNames agents)
  then st
  else abort st.

(** Modelled from the spec: 4.1, step 2, "loop while not terminated", run
    for at most [fuel] passes. *)
Fixpoint loop (fuel : nat) (st : ConversationState) : ConversationState :=
  match fuel with
  | O => st
  | S fuel' => if terminated st then st else loop fuel' (step st)
  end.

(** Modelled from the spec: 4.1, [run]. *)
Definition run (fuel : nat) (task : string) (initialAgent : AgentName)
  : ConversationState :=
  loop fuel (initial task initialAgent).

End Run.

End SwarmOrchestrator.

(** The team of [main] as the engine sees it: an [AssistantAgent] with its
    hand-off and tool lists as sets, and the termination text as a
    [TextMention]. *)
Definition as_agent (a : AssistantAgent) : SwarmOrchestrator.Agent :=
  {| SwarmOrchestrator.agentName := name a;
     SwarmOrchestrator.allowedHandoffTargets := list_to_set (handoffs a);
     SwarmOrchestrator.allowedTools := list_to_set (tools a);
     SwarmOrchestrator.systemPrompt := system_message a |}.

Definition as_condition (c : TextMentionTermination)
  : SwarmOrchestrator.TerminationCondition :=
  SwarmOrchestrator.TextMention (termination_text c).

Definition team_agents (team : Swarm) : list SwarmOrchestrator.Agent :=
  map as_agent (participants team).

(** Modelled from the spec: [run] of 4.1 for the team and the task of
    [main], over any model client, tool catalogue and retry budget. *)
Definition team_run
    (complete : list SwarmOrchestrator.Message -> SwarmOrchestrator.Agent -> nat ->
                SwarmOrchestrator.ModelAnswer)
    (catalog : gmap string (gmap string string -> SwarmOrchestrator.ToolRun))
    (retryBudget : nat) (initialAgent : string) (fuel : nat)
  : SwarmOrchestrator.ConversationState :=
  SwarmOrchestrator.run complete catalog retryBudget (team_agents research_team)
    (as_condition (termination_condition research_team)) fuel task initialAgent.

(** ** Reading a transcript *)

Module Transcript.
Import SwarmOrchestrator.




(** Who holds the floor after [ms], when [speaker] held it before: every
    message must come from the holder, and a hand-off directive passes the
    floor to its target. *)
Fixpoint floor (speaker : AgentName) (ms : list Message) : option AgentName :=
  match ms with
  | [] => Some speaker
  | m :: rest =>
      if String.eqb (sender m) speaker
      then floor (match content m with
                  | HandoffDirective target => target
                  | _ => speaker
                  end) rest
      else None
  end.

(** A message of [speaker] that passes the floor to nobody. *)
Definition plain (speaker : AgentName) (m : Message) : Prop :=
  sender m = speaker /\
  match content m with
  | HandoffDirective _ => False
  | _ => True
  end.

(** A plain message of [speaker] whose position is [n] or later. *)
Definition stamped (speaker : AgentName) (n : nat) (m : Message) : Prop :=
  plain speaker m /\ n <= id m.

(** What every state of a run keeps: the transcript opens with the task
    message, entered under the name of the initial agent; the messages
    after it come from registered agents, each in a position of its own
    after the first; and the floor, held by the initial agent at first, is
    with the active agent. *)
Definition threaded (agents : list Agent) (task : string) (initialAgent : AgentName)
    (st : ConversationState) : Prop :=
  exists rest,
    transcript st = mkMessage 0 initialAgent (To initialAgent) (Text task) :: rest
    /\ Forall (fun m => sender m ∈ agentNames agents /\ id m <> 0) rest
    /\ floor initialAgent (transcript st) = Some (activeAgent st).

End Transcript.


(** ** A concrete world

    One instance of [World], used to run the tools: a quote for TSLA only,
    three news articles, a fixed clock, and [strptime]/[strftime] for the
    two formats the tools use. *)
Module Demo.

Local Open Scope Z_scope.

Definition digit (c : ascii) : option Z :=
  let n := nat_of_ascii c in
  if ((48 <=? n) && (n <=? 57))%nat then Some (Z.of_nat (n - 48)) else None.

Definition digit_char (d : Z) : ascii := ascii_of_nat (48 + Z.to_nat d).

Definition pad2 (n : Z) : string :=
  String (digit_char (n / 10 mod 10)) (String (digit_char (n mod 10)) "").

Definition pad4 (n : Z) : string :=
  String (digit_char (n / 1000 mod 10))
    (String (digit_char (n / 100 mod 10)) (pad2 n)).

Definition demo_strftime (d : datetime) (fmt : string) : string :=
  let date := pad4 (year d) +:+ "-" +:+ pad2 (month d) +:+ "-" +:+ pad2 (day d) in
  if String.eqb fmt "%Y-%m-%d" then date
  else if String.eqb fmt "%Y-%m-%d %H:%M:%S"
  then date +:+ " " +:+ pad2 (hour d) +:+ ":" +:+ pad2 (minute d) +:+ ":" +:+ pad2 (second d)
  else fmt.

(** [%m]: 1[0-2] | 0[1-9] | [1-9] *)
Definition parse_month (s : string) : option (Z * string) :=
  match s with
  | EmptyString => None
  | String a rest =>
      match digit a, rest with
      | Some 1, String b rest' =>
          match digit b with
          | Some d => if d <=? 2 then Some (10 + d, rest') else Some (1, rest)
          | None => Some (1, rest)
          end
      | Some 0, String b rest' =>
          match digit b with
          | Some d => if 1 <=? d then Some (d, rest') else None
          | None => None
          end
      | Some x, _ => if 1 <=? x then Some (x, rest) else None
      | None, _ => None
      end
  end.

(** [%d]: 3[0-1] | [1-2]\d | 0[1-9] | [1-9] | " "[1-9] *)
Definition parse_day (s : string) : option (Z * string) :=
  match s with
  | EmptyString => None
  | String a rest =>
      match digit a, rest with
      | Some 3, String b rest' =>
          match digit b with
          | Some d => if d <=? 1 then Some (30 + d, rest') else Some (3, rest)
          | None => Some (3, rest)
          end
      | Some 0, String b rest' =>
          match digit b with
          | Some d => if 1 <=? d then Some (d, rest') else None
          | None => None
          end
      | Some x, String b rest' =>
          match digit b with
          | Some d => if x <=? 2 then Some (10 * x + d, rest') else Some (x, rest)
          | None => if 1 <=? x then Some (x, rest) else None
          end
      | Some x, EmptyString => if 1 <=? x then Some (x, rest) else None
      | None, String b rest' =>
          match digit b with
          | Some d => if Ascii.eqb a " " && (1 <=? d) then Some (d, rest') else None
          | None => None
          end
      | None, EmptyString => None
      end
  end.

(** [%Y]: \d\d\d\d *)
Definition parse_year (s : string) : option (Z * string) :=
  match s with
  | String a (String b (String c (String d rest))) =>
      match digit a, digit b, digit c, digit d with
      | Some x3, Some x2, Some x1, Some x0 =>
          Some (1000 * x3 + 100 * x2 + 10 * x1 + x0, rest)
      | _, _, _, _ => None
      end
  | _ => None
  end.

Definition slash (s : string) : option string :=
  match s with
  | String c rest => if Ascii.eqb c "/" then Some rest else None
  | EmptyString => None
  end.

Definition is_leap (y : Z) : bool :=
  ((y mod 4 =? 0) && negb (y mod 100 =? 0)) || (y mod 400 =? 0).

Definition days_in_month (y m : Z) : Z :=
  if m =? 2 then (if is_leap y then 29 else 28)
  else if (m =? 4) || (m =? 6) || (m =? 9) || (m =? 11) then 30
  else 31.

Definition value_error (s fmt : string) : Exception :=
  mkException "ValueError"
    ("time data '" +:+ s +:+ "' does not match format '" +:+ fmt +:+ "'").

(** [datetime.strptime(s, "%m/%d/%Y")]; any other format is refused. *)
Definition demo_strptime (s fmt : string) : outcome datetime :=
  if String.eqb fmt "%m/%d/%Y" then
    match
      '(m, s1) ← parse_month s;
      s2 ← slash s1;
      '(d, s3) ← parse_day s2;
      s4 ← slash s3;
      '(y, s5) ← parse_year s4;
      if String.eqb s5 "" && (1 <=? y) && (d <=? days_in_month y m)
      then Some (mkDatetime y m d 0 0 0)
      else None
    with
    | Some date_obj => Return date_obj
    | None => Raise (value_error s fmt)
    end
  else Raise (value_error s fmt).

Definition tsla_history : DataFrame :=
  {| df_index := ["2025-01-02"];
     df_columns :=
       [("Open", [PyFloat 4643000053271134208]);
        ("Close", [PyFloat 4643000053271134208]);
        ("Volume", [PyInt 80000000])] |}.

Definition tsla_info : gmap string PyVal :=
  <["regularMarketVolume" := PyInt 80000000]>
    (<["marketCap" := PyInt 800000000000]> ∅).

Definition tsla : Ticker :=
  {| history := fun _ => Return tsla_history;
     info := Return tsla_info |}.

Definition article_dated : Article :=
  {| art_title := Some " Tesla deliveries rise ";
     art_source := Some (mkNewsSource (Some "Newswire") (Some ["A. Reporter"; "B. Writer"]));
     art_snippet := Some "Deliveries rose.";
     art_description := Some "Quarterly deliveries rose by a tenth.";
     art_link_text := None;
     art_date := Some "03/15/2024, 07:00 AM, +0000 UTC" |}.

Definition article_bare : Article :=
  {| art_title := Some "Tesla opens plant";
     art_source := None;
     art_snippet := None;
     art_description := None;
     art_link_text := None;
     art_date := None |}.

Definition article_recall : Article :=
  {| art_title := Some "Tesla recall";
     art_source := Some (mkNewsSource (Some "Daily") None);
     art_snippet := Some " A recall was announced";
     art_description := None;
     art_link_text := None;
     art_date := Some "yesterday" |}.

Definition articles : list Article :=
  [article_dated; article_bare; article_recall].

Definition world : World :=
  {| yf_Ticker := fun symbol =>
       if String.eqb symbol "TSLA" then Return tsla
       else Raise (mkException "HTTPError" "404 Client Error");
     datetime_now := mkDatetime 2025 1 2 9 30 0;
     strftime := demo_strftime;
     strptime := demo_strptime;
     os_getenv := fun _ => None;
     GoogleSearch_get_dict := fun params =>
       if String.eqb (q params) "" then Raise (mkException "ConnectionError" "network unreachable")
       else if String.eqb (q params) "Tesla" then Return (mkSearchResults (Some articles))
       else Return (mkSearchResults None) |}.

(** A model client that asks to stop in its first reply. *)
Definition finishing (ms : list SwarmOrchestrator.Message) (a : SwarmOrchestrator.Agent)
    (attempt : nat) : SwarmOrchestrator.ModelAnswer :=
  SwarmOrchestrator.Replied
    (SwarmOrchestrator.mkReply (Some "Research complete. TERMINATE") [] []).









End Demo.

(** ** Edge cases of the concrete world

    Worlds in which one library call of [get_stock_data] goes wrong. *)
Module Edge.

(** A ticker whose price history is there and whose [info] cannot be
    fetched. *)
Definition no_info : Ticker :=
  {| history := fun _ => Return Demo.tsla_history;
     info := Raise (mkException "HTTPError" "429 Too Many Requests") |}.

Definition world_no_info : World :=
  {| yf_Ticker := fun _ => Return no_info;
     datetime_now := datetime_now Demo.world;
     strftime := strftime Demo.world;
     strptime := strptime Demo.world;
     os_getenv := os_getenv Demo.world;
     GoogleSearch_get_dict := GoogleSearch_get_dict Demo.world |}.

(** A ticker whose one-day history has a row and no [Close] column. *)
Definition no_close : Ticker :=
  {| history := fun _ =>
       Return {| df_index := ["2025-01-02"];
                 df_columns := [("Open", [PyFloat 4643000053271134208])] |};
     info := Return Demo.tsla_info |}.

Definition world_no_close : World :=
  {| yf_Ticker := fun _ => Return no_close;
     datetime_now := datetime_now Demo.world;
     strftime := strftime Demo.world;
     strptime := strptime Demo.world;
     os_getenv := os_getenv Demo.world;
     GoogleSearch_get_dict := GoogleSearch_get_dict Demo.world |}.

(** A ticker nothing is known about: no rows, an empty [info]. *)
Definition unknown : Ticker :=
  {| history := fun _ => Return {| df_index := []; df_columns := [] |};
     info := Return ∅ |}.

Definition world_unknown : World :=
  {| yf_Ticker := fun _ => Return unknown;
     datetime_now := datetime_now Demo.world;
     strftime := strftime Demo.world;
     strptime := strptime Demo.world;
     os_getenv := os_getenv Demo.world;
     GoogleSearch_get_dict := GoogleSearch_get_dict Demo.world |}.

End Edge.

(** ** Reading an item *)

(** The authors [article.get("source", {}).get("authors", [])] reads. *)
Definition article_authors (article : Article) : list string :=
  default [] (src_authors (default (mkNewsSource None None) (art_source article))).

(** [article] with every absent key written out with the default the
    code reads for it: [""] for a text, [[]] for the authors. *)
Definition with_defaults (article : Article) : Article :=
  let source := default (mkNewsSource None None) (art_source article) in
  {| art_title := Some (default "" (art_title article));
     art_source :=
       Some {| src_name := Some (default "" (src_name source));
               src_authors := Some (default [] (src_authors source)) |};
     art_snippet := Some (default "" (art_snippet article));
     art_description := Some (default "" (art_description article));
     art_link_text := Some (default "" (art_link_text article));
     art_date := Some (default "" (art_date article)) |}.

(** [s] neither begins nor ends with a white-space character. *)
Definition trimmed (s : string) : Prop :=
  (forall c rest, s = String c rest -> py_isspace c = false)
  /\ (forall init c, s = init +:+ String c "" -> py_isspace c = false).

(** ** What a caller can see of a failure

    What the claim on [get_news] calls a failure result, in the two shapes
    the tools could give it: the exception leaves the tool (the invoker
    then wraps it), or a returned item carries an [error] entry as the
    dictionary of [get_stock_data] does. *)
Definition reports_failure (r : outcome (list (gmap string string))) : Prop :=
  match r with
  | Raise _ => True
  | Return items => exists d, d ∈ items /\ is_Some (d !! "error")
  end.

(** * Properties *)

(** ** [get_stock_data] *)

(** The dictionary of the [except] clause. *)
Lemma get_stock_data_except_returns (symbol : string) (e : Exception) (out : Py.stdout) :
  exists d,
    get_stock_data_except symbol e out =
      (Return d,
       (out ++ ["Error fetching stock data for " +:+ symbol +:+ ": " +:+ str e])%list)
    /\ d !! "price" = Some PyNone
    /\ d !! "volume" = Some PyNone
    /\ d !! "pe_ratio" = Some PyNone
    /\ d !! "market_cap" = Some PyNone
    /\ d !! "error" = Some (PyStr (str e)).
Proof.
  eexists. split; [reflexivity|].
  repeat split; by simplify_map_eq.
Qed.

(** The [try] block prints nothing: whatever it ends with, the output is
    the one it started from. *)
Lemma get_stock_data_try_silent (w : World) (symbol : string) (out : Py.stdout) :
  snd (get_stock_data_try w symbol out) = out.
Proof.
  unfold get_stock_data_try, Py.bind, Py.eval, Py.ret.
  destruct (yf_Ticker w symbol) as [stock|e]; simpl; [|done].
  destruct (history stock "1d") as [price_info|e]; simpl; [|done].
  destruct (df_empty price_info); simpl.
  - destruct (info stock); done.
  - destruct (obind _ _); simpl; [|done].
    destruct (info stock); done.
Qed.

(** C1.  For every world, symbol and output so far, [get_stock_data]
    returns a dictionary and raises nothing; and when the [try] block
    raised [e], the dictionary has [price], [volume], [pe_ratio] and
    [market_cap] set to [None] and [error] set to [str(e)], after one line
    reporting the error has been printed. *)
Theorem get_stock_data_never_raises (w : World) (symbol : string) (out : Py.stdout) :
  (exists d out', get_stock_data w symbol out = (Return d, out')) /\
  (forall e out',
     get_stock_data_try w symbol out = (Raise e, out') ->
     exists d,
       get_stock_data w symbol out =
         (Return d,
          (out ++ ["Error fetching stock data for " +:+ symbol +:+ ": " +:+ str e])%list)
       /\ d !! "price" = Some PyNone
       /\ d !! "volume" = Some PyNone
       /\ d !! "pe_ratio" = Some PyNone
       /\ d !! "market_cap" = Some PyNone
       /\ d !! "error" = Some (PyStr (str e))).
Proof.
  split.
  - unfold get_stock_data, Py.try_except.
    destruct (get_stock_data_try w symbol out) as [[d|e] out'].
    + by exists d, out'.
    + destruct (get_stock_data_except_returns symbol e out') as (d & Hd & _).
      eauto.
  - intros e out' Htry.
    pose proof (get_stock_data_try_silent w symbol out) as Hout.
    rewrite Htry in Hout. simpl in Hout. subst out'.
    unfold get_stock_data, Py.try_except. rewrite Htry.
    apply get_stock_data_except_returns.
Qed.

(** The failure branch is taken in the concrete world: an unknown symbol
    makes [yf.Ticker] raise. *)
Lemma get_stock_data_never_raises_witness :
  get_stock_data_try Demo.world "XX" [] =
    (Raise (mkException "HTTPError" "404 Client Error"), []) /\
  exists d,
    get_stock_data Demo.world "XX" [] =
      (Return d, ["Error fetching stock data for XX: 404 Client Error"])
    /\ d !! "price" = Some PyNone
    /\ d !! "volume" = Some PyNone
    /\ d !! "pe_ratio" = Some PyNone
    /\ d !! "market_cap" = Some PyNone
    /\ d !! "error" = Some (PyStr "404 Client Error").
Proof.
  split; [reflexivity|].
  exact (proj2 (get_stock_data_never_raises Demo.world "XX" [])
           (mkException "HTTPError" "404 Client Error") [] eq_refl).
Defined.

(** Each of the four library calls of the [try] block can be the one that
    raises; the exception reaches the [except] clause unchanged. *)
Lemma get_stock_data_try_raises (w : World) (symbol : string) (out : Py.stdout)
    (e : Exception) :
  (yf_Ticker w symbol = Raise e
   \/ (exists stock, yf_Ticker w symbol = Return stock /\ history stock "1d" = Raise e)
   \/ (exists stock price_info,
         yf_Ticker w symbol = Return stock /\ history stock "1d" = Return price_info
         /\ df_empty price_info = false
         /\ obind (df_getitem price_info "Close") iloc_last = Raise e)
   \/ (exists stock price_info,
         yf_Ticker w symbol = Return stock /\ history stock "1d" = Return price_info
         /\ (df_empty price_info = true
             \/ exists v, obind (df_getitem price_info "Close") iloc_last = Return v)
         /\ info stock = Raise e))
  <-> get_stock_data_try w symbol out = (Raise e, out).
Proof.
  unfold get_stock_data_try, Py.bind, Py.eval, Py.ret.
  split.
  - intros [H|[(stock & H1 & H2)|[(stock & pi & H1 & H2 & H3 & H4)
                                 |(stock & pi & H1 & H2 & H3 & H4)]]].
    + by rewrite H.
    + by rewrite H1, H2.
    + by rewrite H1, H2, H3; simpl; rewrite H4.
    + rewrite H1, H2. destruct H3 as [H3|[v H3]].
      * by rewrite H3; simpl; rewrite H4.
      * destruct (df_empty pi); simpl; [|rewrite H3]; by rewrite H4.
  - destruct (yf_Ticker w symbol) as [stock|e0] eqn:H1; simpl.
    2:{ intros [= ->]. by left. }
    destruct (history stock "1d") as [pi|e0] eqn:H2; simpl.
    2:{ intros [= ->]. right; left. eauto. }
    destruct (df_empty pi) eqn:H3; simpl.
    + destruct (info stock) as [i|e0] eqn:H4; simpl; intros [= <-].
      do 3 right. exists stock, pi. eauto 6.
    + destruct (obind _ _) as [v|e0] eqn:H4; simpl.
      * destruct (info stock) as [i|e1] eqn:H5; simpl; intros [= <-].
        do 3 right. exists stock, pi. eauto 8.
      * intros [= <-]. right; right; left. exists stock, pi. eauto.
Qed.

(** C6.  When the [try] block raises nothing, [get_stock_data] returns its
    dictionary: the keys are exactly [price], [volume], [pe_ratio],
    [market_cap] and [last_updated], and [price] is [None] for an empty
    one-day history and the last value of its [Close] column otherwise. *)
Theorem get_stock_data_success (w : World) (symbol : string) (out out' : Py.stdout)
    (d : gmap string PyVal) :
  get_stock_data_try w symbol out = (Return d, out') ->
  get_stock_data w symbol out = (Return d, out')
  /\ dom d = ({["price"; "volume"; "pe_ratio"; "market_cap"; "last_updated"]} : gset string)
  /\ exists stock price_info,
       yf_Ticker w symbol = Return stock
       /\ history stock "1d" = Return price_info
       /\ (df_empty price_info = true -> d !! "price" = Some PyNone)
       /\ (df_empty price_info = false ->
           exists closes v,
             column_lookup "Close" (df_columns price_info) = Some closes
             /\ last closes = Some v
             /\ d !! "price" = Some v).
Proof.
  intros Htry. split.
  { unfold get_stock_data, Py.try_except. by rewrite Htry. }
  revert Htry.
  unfold get_stock_data_try, Py.bind, Py.eval, Py.ret.
  destruct (yf_Ticker w symbol) as [stock|e0] eqn:Hstock; simpl; [|done].
  destruct (history stock "1d") as [pi|e0] eqn:Hhist; simpl; [|done].
  destruct (df_empty pi) eqn:Hempty; simpl.
  - destruct (info stock) as [i|e0]; simpl; intros [= <- <-].
    split; [rewrite !dom_insert_L; set_solver|].
    exists stock, pi. split; [done|]. split; [done|].
    split; [|congruence]. intros _. by simplify_map_eq.
  - unfold df_getitem, iloc_last.
    destruct (column_lookup "Close" (df_columns pi)) as [closes|] eqn:Hcol; simpl; [|done].
    destruct (last closes) as [v|] eqn:Hlast; simpl; [|done].
    destruct (info stock) as [i|e0]; simpl; intros [= <- <-].
    split; [rewrite !dom_insert_L; set_solver|].
    exists stock, pi. split; [done|]. split; [done|].
    split; [congruence|]. intros _. exists closes, v.
    split; [done|]. split; [done|]. by simplify_map_eq.
Qed.

(** The quote of the concrete world: one row, so the price is its close. *)
Lemma get_stock_data_success_witness :
  exists d,
    get_stock_data Demo.world "TSLA" [] = (Return d, [])
    /\ dom d = ({["price"; "volume"; "pe_ratio"; "market_cap"; "last_updated"]} : gset string).
Proof.
  eexists.
  exact (let H := get_stock_data_success Demo.world "TSLA" [] [] _ eq_refl in
         conj (proj1 H) (proj1 (proj2 H))).
Defined.

(** ** [get_news] *)

(** *** Strings *)

Lemma startswith_empty (s : string) : startswith s "" = true.
Proof. by destruct s. Qed.

Lemma startswith_cons (c : ascii) (s p : string) :
  startswith (String c s) (String c p) = startswith s p.
Proof. simpl. by rewrite Ascii.eqb_refl. Qed.

(** [startswith] is what it says: [s] continues [p]. *)
Lemma startswith_app (s p : string) :
  startswith s p = true <-> exists rest, s = p +:+ rest.
Proof.
  revert s. induction p as [|c p IH]; intros s.
  - split; [intros _; by exists s|intros _; apply startswith_empty].
  - destruct s as [|c' s]; simpl; [split; [done|by intros [? ?]]|].
    destruct (Ascii.eqb_spec c c') as [->|Hne]; simpl.
    + split.
      * intros H. apply IH in H as [rest ->]. by exists rest.
      * intros [rest [= ->]]. apply IH. by exists rest.
    + split; [done|]. intros [rest [= ? ?]]. congruence.
Qed.

Lemma rstrip_app_startswith (t u : string) :
  startswith (rstrip (t +:+ u)) (rstrip t) = true.
Proof.
  induction t as [|c t IH]; simpl; [apply startswith_empty|].
  destruct (rstrip t) as [|x r] eqn:Ht.
  - destruct (py_isspace c); [apply startswith_empty|].
    destruct (rstrip (t +:+ u)); rewrite startswith_cons; apply startswith_empty.
  - destruct (rstrip (t +:+ u)) as [|y r'] eqn:Htu; [done|].
    by rewrite startswith_cons.
Qed.

Lemma lstrip_app (s u : string) :
  (lstrip s = "" /\ lstrip (s +:+ u) = lstrip u)
  \/ lstrip (s +:+ u) = lstrip s +:+ u.
Proof.
  induction s as [|c s IH]; simpl; [by left|].
  destruct (py_isspace c); [done|by right].
Qed.

(** Stripping a text that continues [s] gives a text that continues
    [s] stripped. *)
Lemma strip_app_startswith (s u : string) :
  startswith (strip (s +:+ u)) (strip s) = true.
Proof.
  unfold strip. destruct (lstrip_app s u) as [[-> _]| ->].
  - apply startswith_empty.
  - apply rstrip_app_startswith.
Qed.

Lemma rstrip_idemp (s : string) : rstrip (rstrip s) = rstrip s.
Proof.
  induction s as [|c s IH]; simpl; [done|].
  destruct (rstrip s) as [|x r] eqn:Hs.
  - destruct (py_isspace c) eqn:Hc; simpl; [done|by rewrite Hc].
  - simpl in *. by rewrite IH.
Qed.

Lemma lstrip_rstrip_head (s : string) :
  lstrip (rstrip (lstrip s)) = rstrip (lstrip s).
Proof.
  induction s as [|c s IH]; simpl; [done|].
  destruct (py_isspace c) eqn:Hc; [done|].
  simpl. destruct (rstrip s); rewrite ?Hc; simpl; by rewrite Hc.
Qed.

(** The title has been stripped once; stripping it again changes nothing. *)
Lemma strip_idemp (s : string) : strip (strip s) = strip s.
Proof.
  unfold strip. by rewrite lstrip_rstrip_head, rstrip_idemp.
Qed.

(** [before_comma] cuts at the first comma. *)
Lemma before_comma_spec (s : string) :
  contains (before_comma s) "," = false
  /\ (s = before_comma s \/ exists rest, s = before_comma s +:+ "," +:+ rest).
Proof.
  induction s as [|c s [IH1 IH2]]; [by split; [|left]|].
  cbn [before_comma].
  destruct (Ascii.eqb_spec c ",") as [->|Hne].
  - split; [done|]. right. by exists s.
  - split.
    + cbn [contains startswith]. rewrite IH1.
      assert (Ascii.eqb "," c = false) as -> by (apply Ascii.eqb_neq; congruence).
      done.
    + destruct IH2 as [IH2|[rest IH2]]; [left|right; exists rest];
        exact (f_equal (String c) IH2).
Qed.

(** *** The summary *)

Lemma max_by_len_spec (best : string) (rest : list string) :
  max_by_len best rest ∈ best :: rest
  /\ Forall (fun s => String.length s <= String.length (max_by_len best rest))
       (best :: rest).
Proof.
  revert best. induction rest as [|s rest IH]; intros best; simpl.
  - split; [apply list_elem_of_here|]. by repeat constructor.
  - destruct (Nat.ltb_spec (String.length best) (String.length s)) as [Hlt|Hge].
    + destruct (IH s) as [Hin Hall]. split; [by apply list_elem_of_further|].
      inversion Hall as [|? ? Hs Hrest]; subst.
      constructor; [lia|]. by constructor.
    + destruct (IH best) as [Hin Hall].
      split; [rewrite !elem_of_cons in *; tauto|].
      inversion Hall as [|? ? Hb Hrest]; subst.
      constructor; [done|]. constructor; [lia|done].
Qed.

Lemma truthy_nonempty (s : string) : truthy s = true <-> s <> "".
Proof. destruct s; simpl; split; congruence. Qed.

(** Lines 105-106: the title when the three texts are all empty, else a
    non-empty one of them that none of them exceeds in length. *)
Lemma choose_summary_spec (title snippet description link_text : string) :
  let candidates := [snippet; description; link_text] in
  let chosen := choose_summary title snippet description link_text in
  (Forall (fun s => s = "") candidates /\ chosen = title)
  \/ (chosen ∈ candidates /\ chosen <> ""
      /\ Forall (fun s => String.length s <= String.length chosen) candidates).
Proof.
  intros candidates chosen. subst candidates chosen. unfold choose_summary.
  destruct (filter _ _) as [|s rest] eqn:Hf.
  - left. split; [|done].
    apply Forall_forall. intros x Hx.
    destruct (decide (x = "")) as [|Hne]; [done|].
    assert (x ∈ filter (fun s => truthy s = true) [snippet; description; link_text]) as Hin.
    { apply list_elem_of_filter. split; [by apply truthy_nonempty|done]. }
    rewrite Hf in Hin. by apply not_elem_of_nil in Hin.
  - right.
    destruct (max_by_len_spec s rest) as [Hin Hall].
    rewrite <- Hf in Hin, Hall.
    apply list_elem_of_filter in Hin as [Htruthy Hin].
    apply truthy_nonempty in Htruthy.
    split; [done|]. split; [done|].
    apply Forall_forall. intros x Hx.
    destruct (decide (x = "")) as [->|Hne]; [simpl; lia|].
    rewrite Forall_forall in Hall. apply Hall.
    apply list_elem_of_filter. split; [by apply truthy_nonempty|done].
Qed.

(** The four entries of an item, one by one. *)
Lemma news_item_entries (w : World) (article : Article) :
  let title := strip (default "" (art_title article)) in
  let source := default (mkNewsSource None None) (art_source article) in
  let authors := default [] (src_authors source) in
  let author_text :=
    match authors with
    | [] => ""
    | _ :: _ => "By " +:+ join ", " authors
    end in
  news_item w article !! "title" = Some title
  /\ news_item w article !! "date" = Some (format_date w (default "" (art_date article)))
  /\ news_item w article !! "summary" =
       Some (strip (choose_summary title (default "" (art_snippet article))
                      (default "" (art_description article))
                      (default "" (art_link_text article))
                    +:+ " " +:+ author_text))
  /\ news_item w article !! "source" = Some (default "" (src_name source))
  /\ dom (news_item w article) = ({["title"; "date"; "summary"; "source"]} : gset string).
Proof.
  unfold news_item. split_and!; [by simplify_map_eq..|].
  rewrite !dom_insert_L. set_solver.
Qed.

(** C9, as the code has it.  Every item [get_news] builds has exactly the
    keys [title], [date], [summary] and [source]; its summary is the
    stripped text of the chosen string, a space and the author text, and
    so begins with the chosen string stripped of the white space around
    it.  The chosen string is the stripped title (which stripping leaves
    as it is) when snippet, description and link text are all empty, and
    otherwise a non-empty one of the three that none of them exceeds in
    length. *)
Theorem news_item_summary (w : World) (article : Article) :
  dom (news_item w article) = ({["title"; "date"; "summary"; "source"]} : gset string)
  /\ exists chosen summary,
       news_item w article !! "summary" = Some summary
       /\ startswith summary (strip chosen) = true
       /\ ((Forall (fun s => s = "") (article_texts article)
            /\ chosen = article_title article /\ strip chosen = chosen)
           \/ (chosen ∈ article_texts article /\ chosen <> ""
               /\ Forall (fun s => String.length s <= String.length chosen)
                    (article_texts article))).
Proof.
  destruct (news_item_entries w article) as (_ & _ & Hsummary & _ & Hdom).
  split; [exact Hdom|].
  eexists _, _. split; [exact Hsummary|].
  split; [apply strip_app_startswith|].
  destruct (choose_summary_spec (article_title article)
              (default "" (art_snippet article)) (default "" (art_description article))
              (default "" (art_link_text article))) as [[Hall Htitle]|Hchosen].
  - left. split; [exact Hall|]. split; [exact Htitle|].
    fold (article_title article). rewrite Htitle. apply strip_idemp.
  - right. exact Hchosen.
Qed.

Lemma rstrip_app_blank (t : string) : rstrip (t +:+ " ") = rstrip t.
Proof.
  induction t as [|c t IH]; [reflexivity|].
  simpl. by rewrite IH.
Qed.

Lemma strip_app_blank (s : string) : strip (s +:+ " ") = strip s.
Proof.
  unfold strip. destruct (lstrip_app s " ") as [[H1 H2]|H].
  - by rewrite H2, H1.
  - by rewrite H, rstrip_app_blank.
Qed.

(** When no author is named the summary is the chosen string, stripped. *)
Lemma news_item_summary_no_authors (w : World) (article : Article) :
  default [] (src_authors (default (mkNewsSource None None) (art_source article))) = [] ->
  news_item w article !! "summary" =
    Some (strip (choose_summary (strip (default "" (art_title article)))
                   (default "" (art_snippet article))
                   (default "" (art_description article))
                   (default "" (art_link_text article)))).
Proof.
  intros Hauthors.
  destruct (news_item_entries w article) as (_ & _ & Hsummary & _).
  rewrite Hsummary, Hauthors. f_equal.
  apply strip_app_blank.
Qed.

(** C9 as stated fails: the snippet of [Demo.article_recall] opens with a
    blank and is the only non-empty text of the article, so it is the
    longest; the summary has lost the blank and does not begin with it. *)
Lemma news_item_summary_not_prefix :
  ~ (forall (w : World) (article : Article),
       exists chosen summary,
         news_item w article !! "summary" = Some summary
         /\ startswith summary chosen = true
         /\ ((Forall (fun s => s = "") (article_texts article)
              /\ chosen = article_title article)
             \/ (chosen ∈ article_texts article /\ chosen <> ""
                 /\ Forall (fun s => String.length s <= String.length chosen)
                      (article_texts article)))).
Proof.
  intros H.
  destruct (H Demo.world Demo.article_recall) as (chosen & summary & Hs & Hp & Hc).
  assert (summary = "A recall was announced") as -> by (vm_compute in Hs; congruence).
  destruct Hc as [[Hall _]|(Hin & Hne & _)].
  - by inversion Hall.
  - unfold article_texts in Hin. simpl in Hin. rewrite !elem_of_cons in Hin.
    destruct Hin as [->|[->|[->|Hin]]]; try done.
    by apply not_elem_of_nil in Hin.
Qed.

(** C10.  The [date] entry of an item: the date part of the article's date
    string, the text before its first comma, read as [%m/%d/%Y] and
    written back as [%Y-%m-%d] when [strptime] accepts it; the date string
    itself when [strptime] raises; today's date as [%Y-%m-%d] when the
    date string is empty or absent. *)
Theorem news_item_date (w : World) (article : Article) :
  (article_date article = "" ->
   news_item w article !! "date" = Some (strftime w (datetime_now w) "%Y-%m-%d"))
  /\ (forall date_obj,
        article_date article <> "" ->
        strptime w (before_comma (article_date article)) "%m/%d/%Y" = Return date_obj ->
        news_item w article !! "date" = Some (strftime w date_obj "%Y-%m-%d"))
  /\ (forall e,
        article_date article <> "" ->
        strptime w (before_comma (article_date article)) "%m/%d/%Y" = Raise e ->
        news_item w article !! "date" = Some (article_date article)).
Proof.
  destruct (news_item_entries w article) as (_ & -> & _).
  unfold article_date, format_date.
  split; [by intros ->|].
  split.
  - intros date_obj Hne Hparse.
    apply truthy_nonempty in Hne. by rewrite Hne, Hparse.
  - intros e Hne Hparse.
    apply truthy_nonempty in Hne. by rewrite Hne, Hparse.
Qed.

(** The three branches, taken by the three articles of the concrete
    world. *)
Lemma news_item_date_witness :
  news_item Demo.world Demo.article_dated !! "date" = Some "2024-03-15"
  /\ news_item Demo.world Demo.article_bare !! "date" = Some "2025-01-02"
  /\ news_item Demo.world Demo.article_recall !! "date" = Some "yesterday".
Proof.
  split; [|split].
  - apply (proj1 (proj2 (news_item_date Demo.world Demo.article_dated))
             (mkDatetime 2024 3 15 0 0 0)); [discriminate|reflexivity].
  - apply (proj1 (news_item_date Demo.world Demo.article_bare)). reflexivity.
  - apply (proj2 (proj2 (news_item_date Demo.world Demo.article_recall))
             (Demo.value_error "yesterday" "%m/%d/%Y")); [discriminate|reflexivity].
Defined.

(** C7, as the code has it.  [get_news] raises nothing; when the search
    raises [e], one line reporting [e] is printed and the empty list is
    returned. *)
Theorem get_news_never_raises (w : World) (query : string) (out : Py.stdout) :
  (exists items out', get_news w query out = (Return items, out'))
  /\ (forall e,
        GoogleSearch_get_dict w (news_params w query) = Raise e ->
        get_news w query out =
          (Return [], (out ++ ["Error fetching news: " +:+ str e])%list))
  /\ (forall results,
        GoogleSearch_get_dict w (news_params w query) = Return results ->
        get_news w query out =
          (Return (map (news_item w) (default [] (news_results results))), out)).
Proof.
  unfold get_news, get_news_try, get_news_except, Py.try_except, Py.bind, Py.eval,
    Py.ret, Py.print.
  destruct (GoogleSearch_get_dict w (news_params w query)) as [results|e0]; simpl.
  - split; [eauto|]. split; [done|]. by intros ? [= <-].
  - split; [eauto|]. split; [|done]. by intros ? [= <-].
Qed.

(** In the concrete world the empty query cannot be sent. *)
Lemma get_news_never_raises_witness :
  get_news Demo.world "" [] = (Return [], ["Error fetching news: network unreachable"])
  /\ get_news Demo.world "Tesla" [] =
       (Return (map (news_item Demo.world) Demo.articles), []).
Proof.
  split.
  - exact (proj1 (proj2 (get_news_never_raises Demo.world "" []))
             (mkException "ConnectionError" "network unreachable") eq_refl).
  - exact (proj2 (proj2 (get_news_never_raises Demo.world "Tesla" []))
             (mkSearchResults (Some Demo.articles)) eq_refl).
Defined.

(** C7 as stated fails: the search of the concrete world raises for the
    empty query, and what [get_news] hands back is no failure result; it is
    the very list it hands back when the search finds no news. *)
Lemma get_news_failure_discarded :
  GoogleSearch_get_dict Demo.world (news_params Demo.world "") =
    Raise (mkException "ConnectionError" "network unreachable")
  /\ ~ reports_failure (fst (get_news Demo.world "" []))
  /\ GoogleSearch_get_dict Demo.world (news_params Demo.world "Rivian") =
       Return (mkSearchResults None)
  /\ fst (get_news Demo.world "" []) = fst (get_news Demo.world "Rivian" []).
Proof.
  split; [reflexivity|]. split; [|split; reflexivity].
  intros (d & Hin & _). by apply not_elem_of_nil in Hin.
Qed.

(** ** The roster of [main] *)

(** C2.  The participants of the team are planner, financial_analyst,
    news_analyst and writer; the hand-off list of each names registered
    participants only, and never the agent itself. *)
Theorem handoffs_within_roster :
  participant_names research_team =
    ["planner"; "financial_analyst"; "news_analyst"; "writer"]
  /\ Forall (fun a =>
              handoffs a ⊆ participant_names research_team
              /\ name a ∉ handoffs a)
       (participants research_team).
Proof.
  split; [reflexivity|].
  assert (forall a, handoffs_registered research_team a = true ->
                    no_self_handoff a = true ->
                    handoffs a ⊆ participant_names research_team
                    /\ name a ∉ handoffs a) as Hcheck.
  { intros a Hreg Hself. split.
    - intros target Hin. unfold handoffs_registered in Hreg.
      rewrite forallb_forall in Hreg.
      apply list_elem_of_In, Hreg in Hin. by apply bool_decide_eq_true in Hin.
    - unfold no_self_handoff in Hself.
      apply negb_true_iff, bool_decide_eq_false in Hself. exact Hself. }
  unfold research_team. cbn [participants].
  repeat (constructor; [by apply Hcheck|]). constructor.
Qed.


(** ** The orchestration engine *)

Section Engine.
Import SwarmOrchestrator Transcript.
Local Open Scope list_scope.
Context (complete : list Message -> Agent -> nat -> ModelAnswer).
Context (catalog : gmap ToolName (gmap string string -> ToolRun)).
Context (retryBudget : nat).
Context (agents : list Agent).
Context (termination : TerminationCondition).

Lemma findAgent_Some (n : AgentName) (a : Agent) :
  findAgent n agents = Some a -> agentName a = n /\ a ∈ agents.
Proof.
  induction agents as [|b rest IH]; simpl; [done|].
  destruct (String.eqb_spec (agentName b) n) as [Heq|Hne].
  - intros [= ->]. split; [done|apply list_elem_of_here].
  - intros H. apply IH in H as [? ?]. split; [done|by apply list_elem_of_further].
Qed.

Lemma floor_app (speaker : AgentName) (ms ms' : list Message) :
  floor speaker (ms ++ ms') =
    match floor speaker ms with
    | Some holder => floor holder ms'
    | None => None
    end.
Proof.
  revert speaker. induction ms as [|m ms IH]; intros speaker; simpl; [done|].
  destruct (String.eqb (sender m) speaker); [apply IH|done].
Qed.

Lemma floor_plain (speaker : AgentName) (ms : list Message) :
  Forall (plain speaker) ms -> floor speaker ms = Some speaker.
Proof.
  induction 1 as [|m ms [Hs Hc] _ IH]; simpl; [done|].
  rewrite Hs, String.eqb_refl. by destruct (content m).
Qed.


Lemma appendAll_spec (from : AgentName) (cs : list Content) (ms : list Message) :
  exists new,
    appendAll from cs ms = ms ++ new
    /\ Forall2 (fun m c => sender m = from /\ content m = c) new cs
    /\ Forall (fun m => length ms <= id m) new.
Proof.
  unfold appendAll. revert ms.
  induction cs as [|c cs IH]; intros ms; simpl.
  - exists []. by rewrite app_nil_r.
  - destruct (IH (append from Broadcast c ms)) as (new & -> & Hnew & Hids).
    exists (mkMessage (length ms) from Broadcast c :: new).
    unfold append in *. rewrite <- app_assoc. split; [done|]. split.
    + by constructor.
    + constructor; [done|]. eapply Forall_impl; [exact Hids|].
      intros m. rewrite length_app. simpl. lia.
Qed.

Lemma appendAll_plain (from : AgentName) (cs : list Content) (ms : list Message) :
  Forall (fun c => match c with HandoffDirective _ => False | _ => True end) cs ->
  exists new, appendAll from cs ms = ms ++ new /\ Forall (stamped from (length ms)) new.
Proof.
  intros Hcs. destruct (appendAll_spec from cs ms) as (new & -> & Hnew & Hids).
  exists new. split; [done|].
  induction Hnew as [|m c new cs [Hs Hc] _ IH]; [done|].
  inversion Hcs; subst. apply Forall_cons in Hids as [Hid Hids].
  constructor; [|by apply IH].
  split; [|done]. split; [done|]. by destruct (content m).
Qed.

Lemma stamped_le (speaker : AgentName) (n n' : nat) (ms : list Message) :
  n <= n' -> Forall (stamped speaker n') ms -> Forall (stamped speaker n) ms.
Proof.
  intros Hle Hms. eapply Forall_impl; [exact Hms|].
  intros m [Hp Hid]. split; [done|lia].
Qed.

(** One turn appends messages of the agent only, each in a position after
    those already taken, and leaves the floor with the agent the next
    turn is given to. *)
Lemma takeTurn_transcript (st : ConversationState) (a : Agent) (reply : Reply) :
  activeAgent st = agentName a ->
  exists new,
    transcript (takeTurn catalog termination st a reply) = transcript st ++ new
    /\ Forall (fun m => sender m = agentName a /\ length (transcript st) <= id m) new
    /\ floor (agentName a) new =
         Some (activeAgent (takeTurn catalog termination st a reply)).
Proof.
  intros Hactive. unfold takeTurn.
  set (n := length (transcript st)).
  set (spoken := match replyText reply with
                 | Some t => append (agentName a) Broadcast (Text t) (transcript st)
                 | None => transcript st
                 end).
  assert (exists said, spoken = transcript st ++ said
                       /\ Forall (stamped (agentName a) n) said) as (said & Hspoken & Hsaid).
  { subst spoken. destruct (replyText reply).
    - eexists [_]. split; [reflexivity|].
      constructor; [|constructor]. split; [by split|]. simpl. by subst n.
    - exists []. by rewrite app_nil_r. }
  clearbody spoken. subst spoken.
  assert (forall l, Forall (stamped (agentName a) n) l ->
                    Forall (fun m => sender m = agentName a /\ n <= id m) l) as Hsender.
  { intros l Hl. eapply Forall_impl; [exact Hl|]. by intros m [[? _] ?]. }
  assert (forall l, Forall (stamped (agentName a) n) l ->
                    Forall (plain (agentName a)) l) as Hplain.
  { intros l Hl. eapply Forall_impl; [exact Hl|]. by intros m [? _]. }
  assert (forall l, n <= length (transcript st ++ l)) as Hlen.
  { intros l. rewrite length_app. subst n. lia. }
  assert (forall l to c,
            match c with HandoffDirective _ => False | _ => True end ->
            Forall (stamped (agentName a) n)
              [mkMessage (length (transcript st ++ l)) (agentName a) to c]) as Hone.
  { intros l to c Hc. constructor; [|constructor].
    split; [by split|apply Hlen]. }
  destruct (replyToolCalls reply) as [|c cs] eqn:Hcalls.
  - set (noted := match replyHandoff reply with
                  | _ :: (_ :: _) as ignored =>
                      append (agentName a) Broadcast (Warning ignored) (transcript st ++ said)
                  | _ => transcript st ++ said
                  end).
    assert (exists heard, noted = transcript st ++ heard
                          /\ Forall (stamped (agentName a) n) heard)
      as (heard & Hnoted & Hheard).
    { subst noted. destruct (replyHandoff reply) as [|t1 [|t2 ts]].
      - by exists said.
      - by exists said.
      - exists (said ++ [mkMessage (length (transcript st ++ said)) (agentName a)
                           Broadcast (Warning (t2 :: ts))]).
        unfold append. rewrite <- app_assoc. split; [done|].
        apply Forall_app. split; [done|]. by apply Hone. }
    clearbody noted. subst noted.
    destruct (route reply a) as [|target|target]; simpl.
    + exists heard. split; [done|]. split; [by apply Hsender|].
      rewrite Hactive. by apply floor_plain, Hplain.
    + exists (heard ++ [mkMessage (length (transcript st ++ heard)) (agentName a)
                          (To target) (HandoffDirective target)]).
      unfold append. rewrite <- app_assoc. split; [done|]. split.
      * apply Forall_app. split; [by apply Hsender|].
        constructor; [|constructor]. split; [done|apply Hlen].
      * rewrite floor_app, (floor_plain _ _ (Hplain _ Hheard)). simpl.
        by rewrite String.eqb_refl.
    + exists (heard ++ [mkMessage (length (transcript st ++ heard)) (agentName a)
                          Broadcast (Error target)]).
      unfold append. rewrite <- app_assoc. split; [done|].
      assert (Forall (stamped (agentName a) n)
                (heard ++ [mkMessage (length (transcript st ++ heard)) (agentName a)
                             Broadcast (Error target)])) as Hall.
      { apply Forall_app. split; [done|]. by apply Hone. }
      split; [by apply Hsender|]. rewrite Hactive. by apply floor_plain, Hplain.
  - simpl.
    destruct (appendAll_plain (agentName a) (map Call (c :: cs)) (transcript st ++ said))
      as (called & Hcalled & Hplain1).
    { apply Forall_forall. intros x Hx. apply list_elem_of_fmap in Hx as (? & -> & _). done. }
    simpl in Hcalled. rewrite Hcalled.
    destruct (appendAll_plain (agentName a)
                (map (fun c0 => Result (invoke c0 catalog (allowedTools a))) (c :: cs))
                ((transcript st ++ said) ++ called))
      as (answered & Hanswered & Hplain2).
    { apply Forall_forall. intros x Hx. apply list_elem_of_fmap in Hx as (? & -> & _). done. }
    simpl in Hanswered. rewrite Hanswered.
    exists (said ++ called ++ answered).
    rewrite <- !app_assoc. split; [done|].
    assert (Forall (stamped (agentName a) n) (said ++ called ++ answered)) as Hall.
    { rewrite !Forall_app. split; [done|]. split.
      - eapply stamped_le; [|exact Hplain1]. apply Hlen.
      - eapply stamped_le; [|exact Hplain2]. rewrite <- app_assoc. apply Hlen. }
    split; [by apply Hsender|]. rewrite Hactive. by apply floor_plain, Hplain.
Qed.

End Engine.

Section Runs.
Import SwarmOrchestrator Transcript.
Local Open Scope list_scope.
Context (complete : list Message -> Agent -> nat -> ModelAnswer).
Context (catalog : gmap ToolName (gmap string string -> ToolRun)).
Context (retryBudget : nat).
Context (agents : list Agent).
Context (termination : TerminationCondition).

(** A terminated state is where the loop leaves off: no further turn. *)
Lemma loop_terminated (fuel : nat) (st : ConversationState) :
  terminated st = true ->
  loop complete catalog retryBudget agents termination fuel st = st.
Proof. intros H. destruct fuel; simpl; [done|by rewrite H]. Qed.

Lemma loop_add (n m : nat) (st : ConversationState) :
  loop complete catalog retryBudget agents termination (n + m) st =
    loop complete catalog retryBudget agents termination m
      (loop complete catalog retryBudget agents termination n st).
Proof.
  revert st. induction n as [|n IH]; intros st; simpl; [done|].
  destruct (terminated st) eqn:Hterm; [by rewrite loop_terminated|apply IH].
Qed.

Lemma loop_succ (n : nat) (st : ConversationState) :
  terminated (loop complete catalog retryBudget agents termination n st) = false ->
  loop complete catalog retryBudget agents termination (S n) st =
    step complete catalog retryBudget agents termination
      (loop complete catalog retryBudget agents termination n st).
Proof.
  intros H. replace (S n) with (n + 1) by lia.
  rewrite loop_add. simpl. by rewrite H.
Qed.

Lemma loop_settled (n m : nat) (st : ConversationState) :
  terminated (loop complete catalog retryBudget agents termination n st) = true ->
  loop complete catalog retryBudget agents termination (n + m) st =
    loop complete catalog retryBudget agents termination n st.
Proof. intros H. by rewrite loop_add, loop_terminated. Qed.




Lemma initial_threaded (task : string) (initialAgent : AgentName) :
  threaded agents task initialAgent (initial agents task initialAgent).
Proof.
  exists []. unfold initial.
  destruct (_ && _); cbn; by rewrite String.eqb_refl.
Qed.

Lemma step_threaded (task : string) (initialAgent : AgentName) (st : ConversationState) :
  threaded agents task initialAgent st ->
  threaded agents task initialAgent
    (step complete catalog retryBudget agents termination st).
Proof.
  intros (rest & Hrest & Hsenders & Hfloor). unfold SwarmOrchestrator.step.
  destruct (findAgent (activeAgent st) agents) as [a|] eqn:Ha; [|by exists rest].
  destruct (askModel _ _ _ _ _) as [reply|]; [|by exists rest].
  apply findAgent_Some in Ha as [Hname Hin].
  destruct (takeTurn_transcript catalog termination st a reply (eq_sym Hname))
    as (new & Hnew & Hfrom & Hto).
  exists (rest ++ new). split; [by rewrite Hnew, Hrest|]. split.
  - apply Forall_app. split; [done|].
    eapply Forall_impl; [exact Hfrom|]. intros m [-> Hid]. split.
    + apply list_elem_of_fmap. by exists a.
    + rewrite Hrest in Hid. simpl in Hid. lia.
  - by rewrite Hnew, floor_app, Hfloor, <- Hname.
Qed.

Lemma loop_threaded (task : string) (initialAgent : AgentName) (fuel : nat)
    (st : ConversationState) :
  threaded agents task initialAgent st ->
  threaded agents task initialAgent
    (loop complete catalog retryBudget agents termination fuel st).
Proof.
  revert st. induction fuel as [|fuel IH]; intros st Hst; simpl; [done|].
  destruct (terminated st); [done|]. by apply IH, step_threaded.
Qed.

(** Every state of a run is threaded. *)
Lemma run_threaded (task : string) (initialAgent : AgentName) (fuel : nat) :
  threaded agents task initialAgent
    (run complete catalog retryBudget agents termination fuel task initialAgent).
Proof. apply loop_threaded, initial_threaded. Qed.


(** The text of a reply is in the transcript once the turn is taken. *)
Lemma takeTurn_text (st : ConversationState) (a : Agent) (reply : Reply) (t : string) :
  replyText reply = Some t ->
  mkMessage (length (transcript st)) (agentName a) Broadcast (Text t)
    ∈ transcript (takeTurn catalog termination st a reply).
Proof.
  intros Ht. unfold takeTurn. rewrite Ht.
  set (spoken := append (agentName a) Broadcast (Text t) (transcript st)).
  assert (mkMessage (length (transcript st)) (agentName a) Broadcast (Text t) ∈ spoken)
    as Hin.
  { apply elem_of_app. right. apply list_elem_of_here. }
  clearbody spoken.
  destruct (replyToolCalls reply) as [|c cs].
  - assert (mkMessage (length (transcript st)) (agentName a) Broadcast (Text t)
              ∈ match replyHandoff reply with
                | _ :: (_ :: _) as ignored =>
                    append (agentName a) Broadcast (Warning ignored) spoken
                | _ => spoken
                end) as Hin'.
    { destruct (replyHandoff reply) as [|t1 [|t2 ts]]; [done|done|].
      apply elem_of_app. by left. }
    destruct (route reply a); simpl; [done| |];
      apply elem_of_app; by left.
  - simpl.
    destruct (appendAll_spec (agentName a) (map Call (c :: cs)) spoken)
      as (called & Hcalled & _).
    simpl in Hcalled. rewrite Hcalled.
    destruct (appendAll_spec (agentName a)
                (map (fun c0 => Result (invoke c0 catalog (allowedTools a))) (c :: cs))
                (spoken ++ called)) as (answered & Hanswered & _).
    simpl in Hanswered. rewrite Hanswered.
    rewrite !elem_of_app. by left; left.
Qed.

End Runs.

(** ** The run of [main] *)

(** [contains] is exact substring search: [p] occurs in [s] between some
    text before and some text after, character for character. *)
Lemma contains_spec (s p : string) :
  contains s p = true <-> exists before after, s = before +:+ p +:+ after.
Proof.
  induction s as [|c s IH].
  - cbn [contains]. rewrite orb_false_r, startswith_app. split.
    + intros [rest H]. by exists "", rest.
    + intros (before & after & H). destruct before; [by exists after|done].
  - cbn [contains]. rewrite orb_true_iff, startswith_app, IH. split.
    + intros [[rest H]|(before & after & H)].
      * by exists "", rest.
      * exists (String c before), after. simpl. by rewrite H.
    + intros (before & after & H). destruct before as [|c' before].
      * left. by exists after.
      * right. injection H as _ H. by exists before, after.
Qed.

(** Upper and lower case are different characters. *)
Lemma contains_case_sensitive :
  contains "The research is done: terminate." "TERMINATE" = false
  /\ contains "The research is done: TERMINATE." "TERMINATE" = true
  /\ contains task "TERMINATE" = false.
Proof. by vm_compute. Qed.


Section TeamRun.
Import SwarmOrchestrator Transcript.
Local Open Scope list_scope.
Context (complete : list Message -> Agent -> nat -> ModelAnswer).
Context (catalog : gmap ToolName (gmap string string -> ToolRun)).
Context (retryBudget : nat).

(** What [TextMention] sees in a threaded transcript of the team: the task
    message never counts and holds no TERMINATE; every other text does. *)
Lemma team_mention (initialAgent : AgentName) (st : ConversationState) :
  threaded (team_agents research_team) task initialAgent st ->
  satisfied (as_condition (termination_condition research_team)) st = true
  <-> exists m t,
        m ∈ transcript st /\ content m = Text t /\ contains t "TERMINATE" = true.
Proof.
  intros (rest & Hrest & Hsenders & _).
  cbn [as_condition termination_condition research_team text_termination
       termination_text satisfied].
  rewrite Hrest. cbn [existsb]. rewrite orb_false_l by done.
  rewrite existsb_exists. split.
  - intros (m & Hin & Hm). unfold mentions in Hm.
    destruct (content m) as [t| | | | |] eqn:Hc; try done.
    apply andb_true_iff in Hm as [_ Hm].
    exists m, t. split; [|done]. apply list_elem_of_further. by apply list_elem_of_In.
  - intros (m & t & Hin & Hc & Ht).
    apply elem_of_cons in Hin as [->|Hin].
    + simpl in Hc. injection Hc as <-. by vm_compute in Ht.
    + exists m. split; [by apply list_elem_of_In|].
      unfold mentions. rewrite Hc, Ht.
      rewrite Forall_forall in Hsenders. destruct (Hsenders m Hin) as [_ Hid].
      apply Nat.eqb_neq in Hid. by rewrite Hid.
Qed.

(** C3.  In every state of the run of [main], the termination condition
    holds exactly when some message of the transcript is a text in which
    TERMINATE occurs, character for character, between some text before
    and some text after; and when the turn of the active agent puts such a
    text in the transcript, that turn ends the run: the state is
    terminated, and however much longer the loop is allowed to go on, it
    takes no further turn. *)
Theorem text_mention_stops_run (initialAgent : AgentName) (fuel : nat) :
  (satisfied (as_condition (termination_condition research_team))
     (team_run complete catalog retryBudget initialAgent fuel) = true
   <-> exists m before after,
         m ∈ transcript (team_run complete catalog retryBudget initialAgent fuel)
         /\ content m = Text (before +:+ "TERMINATE" +:+ after))
  /\ (forall a reply before after,
        terminated (team_run complete catalog retryBudget initialAgent fuel) = false ->
        findAgent (activeAgent (team_run complete catalog retryBudget initialAgent fuel))
          (team_agents research_team) = Some a ->
        askModel complete
          (transcript (team_run complete catalog retryBudget initialAgent fuel))
          a 0 retryBudget = Some reply ->
        replyText reply = Some (before +:+ "TERMINATE" +:+ after) ->
        terminated (team_run complete catalog retryBudget initialAgent (S fuel)) = true
        /\ turnCount (team_run complete catalog retryBudget initialAgent (S fuel)) =
             S (turnCount (team_run complete catalog retryBudget initialAgent fuel))
        /\ forall more,
             team_run complete catalog retryBudget initialAgent (S fuel + more) =
               team_run complete catalog retryBudget initialAgent (S fuel)).
Proof.
  split.
  - rewrite (team_mention initialAgent) by apply run_threaded. split.
    + intros (m & t & Hin & Hc & Ht).
      apply contains_spec in Ht as (before & after & ->). by exists m, before, after.
    + intros (m & before & after & Hin & Hc).
      exists m, (before +:+ "TERMINATE" +:+ after).
      split; [exact Hin|]. split; [exact Hc|].
      apply contains_spec. by exists before, after.
  - intros a reply before after Hrunning Ha Hreply Ht.
    assert (contains (before +:+ "TERMINATE" +:+ after) "TERMINATE" = true) as Hmention.
    { apply contains_spec. by exists before, after. }
    assert (team_run complete catalog retryBudget initialAgent (S fuel) =
              takeTurn catalog (as_condition (termination_condition research_team))
                (team_run complete catalog retryBudget initialAgent fuel) a reply)
      as Hstep.
    { unfold team_run, run in *. rewrite loop_succ by exact Hrunning.
      unfold step. rewrite Ha, Hreply. reflexivity. }
    assert (terminated (team_run complete catalog retryBudget initialAgent (S fuel)) = true)
      as Hdone.
    { rewrite Hstep.
      pose proof (takeTurn_text catalog (as_condition (termination_condition research_team))
                    (team_run complete catalog retryBudget initialAgent fuel)
                    a reply _ Ht) as Hin.
      unfold takeTurn in *.
      destruct (match replyToolCalls reply with [] => _ | _ :: _ => _ end) as [ms next].
      cbn [terminated transcript satisfied as_condition termination_condition
           research_team text_termination termination_text] in *.
      apply existsb_exists. eexists. split; [apply list_elem_of_In; exact Hin|].
      unfold mentions. cbn [content id]. rewrite Hmention.
      destruct (run_threaded complete catalog retryBudget (team_agents research_team)
                  (as_condition (termination_condition research_team))
                  task initialAgent fuel) as (rest & Hrest & _).
      unfold team_run. rewrite Hrest. reflexivity. }
    split; [exact Hdone|]. split.
    + rewrite Hstep. unfold takeTurn.
      destruct (match replyToolCalls reply with [] => _ | _ :: _ => _ end).
      reflexivity.
    + intros more. clear Hstep. unfold team_run, run in *.
      apply loop_settled. exact Hdone.
Qed.

End TeamRun.

(** The run of the concrete client that asks to stop in its first reply:
    one turn, whatever the fuel. *)
Lemma text_mention_stops_run_witness :
  SwarmOrchestrator.terminated (team_run Demo.finishing ∅ 0 "planner" 1) = true
  /\ SwarmOrchestrator.turnCount (team_run Demo.finishing ∅ 0 "planner" 1) = 1
  /\ forall more,
       team_run Demo.finishing ∅ 0 "planner" (1 + more) =
         team_run Demo.finishing ∅ 0 "planner" 1.
Proof.
  apply (proj2 (text_mention_stops_run Demo.finishing ∅ 0 "planner" 0)
           (as_agent planner)
           (SwarmOrchestrator.mkReply (Some "Research complete. TERMINATE") [] [])
           "Research complete. " "");
    vm_compute; reflexivity.
Defined.

(** ** Turns with tool calls *)

Section Turns.
Import SwarmOrchestrator Transcript.
Local Open Scope list_scope.
Context (catalog : gmap ToolName (gmap string string -> ToolRun)).
Context (termination : TerminationCondition).


End Turns.

Section Clients.
Import SwarmOrchestrator.
Context (catalog : gmap ToolName (gmap string string -> ToolRun)).
Context (retryBudget : nat).
Context (agents : list Agent).
Context (termination : TerminationCondition).




End Clients.

(** ** Hand-offs of the specialists *)





(** ** One speaker at a time *)




(** ** Tools that do not answer in time *)



(** * Further properties of the tools *)

(** ** [get_stock_data]: what the result tells *)

(** The dictionary a completed [try] block returns, entry by entry. *)
Lemma get_stock_data_try_returns (w : World) (symbol : string) (out out' : Py.stdout)
    (d : gmap string PyVal) :
  get_stock_data_try w symbol out = (Return d, out') ->
  exists stock price_info current_price i,
    yf_Ticker w symbol = Return stock
    /\ history stock "1d" = Return price_info
    /\ (if df_empty price_info then current_price = PyNone
        else obind (df_getitem price_info "Close") iloc_last = Return current_price)
    /\ info stock = Return i
    /\ out' = out
    /\ d = <["price" := current_price]>
             (<["volume" := dict_get i "regularMarketVolume"]>
               (<["pe_ratio" := dict_get i "forwardPE"]>
                 (<["market_cap" := dict_get i "marketCap"]>
                   (<["last_updated" :=
                        PyStr (strftime w (datetime_now w) "%Y-%m-%d %H:%M:%S")]> ∅)))).
Proof.
  unfold get_stock_data_try, Py.bind, Py.eval, Py.ret.
  destruct (yf_Ticker w symbol) as [stock|e0] eqn:Hstock; simpl; [|done].
  destruct (history stock "1d") as [pi|e0] eqn:Hhist; simpl; [|done].
  destruct (df_empty pi) eqn:Hempty; simpl.
  - destruct (info stock) as [i|e0] eqn:Hinfo; simpl; intros [= <- <-].
    exists stock, pi, PyNone, i. by rewrite Hempty.
  - destruct (obind _ _) as [v|e0] eqn:Hprice; simpl; [|done].
    destruct (info stock) as [i|e0] eqn:Hinfo; simpl; intros [= <- <-].
    exists stock, pi, v, i. by rewrite Hempty.
Qed.

(** X1.  Whatever [get_stock_data] returns tells whether the fetch worked:
    either the [try] block completed, and the dictionary has a
    [last_updated] entry, no [error] entry, and nothing was printed; or it
    raised, and the dictionary has an [error] entry, no [last_updated]
    entry, and exactly one line was printed.  Never both entries, never
    neither. *)
Theorem get_stock_data_error_xor_timestamp (w : World) (symbol : string)
    (out out' : Py.stdout) (d : gmap string PyVal) :
  get_stock_data w symbol out = (Return d, out') ->
  (get_stock_data_try w symbol out = (Return d, out)
   /\ out' = out
   /\ is_Some (d !! "last_updated") /\ d !! "error" = None)
  \/ (exists e,
        get_stock_data_try w symbol out = (Raise e, out)
        /\ out' = (out ++ ["Error fetching stock data for " +:+ symbol +:+ ": " +:+ str e])%list
        /\ d !! "error" = Some (PyStr (str e)) /\ d !! "last_updated" = None).
Proof.
  unfold get_stock_data, Py.try_except.
  pose proof (get_stock_data_try_silent w symbol out) as Hsilent.
  destruct (get_stock_data_try w symbol out) as [[d0|e] out0] eqn:Htry;
    simpl in Hsilent; subst out0.
  - intros [= <- <-]. left.
    destruct (get_stock_data_try_returns _ _ _ _ _ Htry)
      as (stock & pi & v & i & _ & _ & _ & _ & _ & ->).
    split; [done|]. split; [done|]. split; [|by simplify_map_eq].
    eexists. by simplify_map_eq.
  - intros Hexcept. right. exists e.
    destruct (get_stock_data_except_returns symbol e out) as (d1 & Hd1 & _).
    unfold get_stock_data_except, Py.bind, Py.print, Py.ret in *. simpl in *.
    injection Hexcept as <- <-.
    split; [done|]. split; [done|]. split; by simplify_map_eq.
Qed.

(** Both cases occur in the concrete world. *)
Lemma get_stock_data_error_xor_timestamp_witness :
  (exists d, get_stock_data Demo.world "TSLA" [] = (Return d, [])
             /\ is_Some (d !! "last_updated") /\ d !! "error" = None)
  /\ (exists d out', get_stock_data Demo.world "XX" [] = (Return d, out')
                     /\ is_Some (d !! "error") /\ d !! "last_updated" = None).
Proof.
  split.
  - eexists. split; [reflexivity|].
    destruct (get_stock_data_error_xor_timestamp Demo.world "TSLA" [] [] _ eq_refl)
      as [(_ & _ & Hts & Herr)|(e & Htry & _)]; [by split|].
    exfalso.
    assert (match fst (get_stock_data_try Demo.world "TSLA" []) with
            | Return _ => True
            | Raise _ => False
            end) as Hreturns by (vm_compute; exact I).
    rewrite Htry in Hreturns. exact Hreturns.
  - eexists _, _. split; [reflexivity|].
    destruct (get_stock_data_error_xor_timestamp Demo.world "XX" [] _ _ eq_refl)
      as [(Htry & _)|(e & _ & _ & Herr & Hts)].
    + exfalso.
      assert (match fst (get_stock_data_try Demo.world "XX" []) with
              | Return _ => False
              | Raise _ => True
              end) as Hraises by (vm_compute; exact I).
      rewrite Htry in Hraises. exact Hraises.
    + split; [|exact Hts]. rewrite Herr. by eexists.
Defined.

(** X2.  All or nothing: when the price has been read (or the history was
    empty) and [stock.info] then raises, the price is dropped with the
    rest; the result is the failure dictionary, [price] being [None]. *)
Theorem get_stock_data_info_failure_drops_price (w : World) (symbol : string)
    (out : Py.stdout) (stock : Ticker) (price_info : DataFrame) (e : Exception) :
  yf_Ticker w symbol = Return stock ->
  history stock "1d" = Return price_info ->
  (df_empty price_info = true
   \/ exists v, obind (df_getitem price_info "Close") iloc_last = Return v) ->
  info stock = Raise e ->
  exists d,
    get_stock_data w symbol out =
      (Return d,
       (out ++ ["Error fetching stock data for " +:+ symbol +:+ ": " +:+ str e])%list)
    /\ d !! "price" = Some PyNone
    /\ d !! "error" = Some (PyStr (str e))
    /\ d !! "last_updated" = None.
Proof.
  intros Hstock Hhist Hprice Hinfo.
  assert (get_stock_data_try w symbol out = (Raise e, out)) as Htry.
  { apply get_stock_data_try_raises. do 3 right. exists stock, price_info. eauto. }
  unfold get_stock_data, Py.try_except. rewrite Htry.
  eexists. split; [reflexivity|]. split_and!; by simplify_map_eq.
Qed.

(** A world where the close of the day is there and [info] is refused. *)
Lemma get_stock_data_info_failure_drops_price_witness :
  obind (df_getitem Demo.tsla_history "Close") iloc_last =
    Return (PyFloat 4643000053271134208)
  /\ exists d,
       get_stock_data Edge.world_no_info "TSLA" [] =
         (Return d, ["Error fetching stock data for TSLA: 429 Too Many Requests"])
       /\ d !! "price" = Some PyNone
       /\ d !! "error" = Some (PyStr "429 Too Many Requests")
       /\ d !! "last_updated" = None.
Proof.
  split; [reflexivity|].
  apply (get_stock_data_info_failure_drops_price Edge.world_no_info "TSLA" []
           Edge.no_info Demo.tsla_history
           (mkException "HTTPError" "429 Too Many Requests"));
    [reflexivity|reflexivity| |reflexivity].
  right. by eexists.
Defined.

(** X3.  A key missing from [stock.info] is no failure: when the [try]
    block gets as far as [info], [volume], [pe_ratio] and [market_cap] are
    the values of [regularMarketVolume], [forwardPE] and [marketCap], each
    [None] when [info] has no such key, and the result has no [error]
    entry. *)
Theorem get_stock_data_missing_info_keys (w : World) (symbol : string)
    (out : Py.stdout) (stock : Ticker) (price_info : DataFrame)
    (i : gmap string PyVal) :
  yf_Ticker w symbol = Return stock ->
  history stock "1d" = Return price_info ->
  (df_empty price_info = true
   \/ exists v, obind (df_getitem price_info "Close") iloc_last = Return v) ->
  info stock = Return i ->
  exists d,
    get_stock_data w symbol out = (Return d, out)
    /\ d !! "volume" = Some (default PyNone (i !! "regularMarketVolume"))
    /\ d !! "pe_ratio" = Some (default PyNone (i !! "forwardPE"))
    /\ d !! "market_cap" = Some (default PyNone (i !! "marketCap"))
    /\ d !! "error" = None.
Proof.
  intros Hstock Hhist Hprice Hinfo.
  unfold get_stock_data, Py.try_except, get_stock_data_try, Py.bind, Py.eval, Py.ret.
  rewrite Hstock. simpl. rewrite Hhist. simpl.
  destruct Hprice as [Hempty|[v Hv]].
  - rewrite Hempty. simpl. rewrite Hinfo. simpl.
    eexists. split; [reflexivity|]. split_and!; by simplify_map_eq.
  - destruct (df_empty price_info); simpl; [|rewrite Hv; simpl];
      rewrite Hinfo; simpl;
      (eexists; split; [reflexivity|]; split_and!; by simplify_map_eq).
Qed.

(** The concrete quote has a volume and a market capitalisation and no
    forward P/E; the unknown ticker has nothing at all. *)
Lemma get_stock_data_missing_info_keys_witness :
  (exists d,
     get_stock_data Demo.world "TSLA" [] = (Return d, [])
     /\ d !! "volume" = Some (PyInt 80000000)
     /\ d !! "pe_ratio" = Some PyNone
     /\ d !! "market_cap" = Some (PyInt 800000000000)
     /\ d !! "error" = None)
  /\ (exists d,
        get_stock_data Edge.world_unknown "ZZZZ" [] = (Return d, [])
        /\ d !! "volume" = Some PyNone
        /\ d !! "pe_ratio" = Some PyNone
        /\ d !! "market_cap" = Some PyNone
        /\ d !! "error" = None).
Proof.
  split.
  - exact (get_stock_data_missing_info_keys Demo.world "TSLA" [] Demo.tsla
             Demo.tsla_history Demo.tsla_info eq_refl eq_refl
             (or_intror (ex_intro _ (PyFloat 4643000053271134208) eq_refl)) eq_refl).
  - exact (get_stock_data_missing_info_keys Edge.world_unknown "ZZZZ" [] Edge.unknown
             (mkDataFrame [] []) ∅ eq_refl eq_refl (or_introl eq_refl) eq_refl).
Defined.

(** X4.  A history that has rows and no [Close] column is a failure, not a
    quote without a price: the [KeyError] reaches the [except] clause and
    the caller gets the failure dictionary. *)
Theorem get_stock_data_no_close_column (w : World) (symbol : string)
    (out : Py.stdout) (stock : Ticker) (price_info : DataFrame) :
  yf_Ticker w symbol = Return stock ->
  history stock "1d" = Return price_info ->
  df_empty price_info = false ->
  column_lookup "Close" (df_columns price_info) = None ->
  exists d e,
    exc_type e = "KeyError"
    /\ get_stock_data w symbol out =
         (Return d,
          (out ++ ["Error fetching stock data for " +:+ symbol +:+ ": " +:+ str e])%list)
    /\ d !! "price" = Some PyNone
    /\ d !! "error" = Some (PyStr (str e))
    /\ d !! "last_updated" = None.
Proof.
  intros Hstock Hhist Hrows Hclose.
  assert (get_stock_data_try w symbol out = (Raise (mkException "KeyError" "Close"), out))
    as Htry.
  { apply get_stock_data_try_raises. right; right; left.
    exists stock, price_info. split; [done|]. split; [done|]. split; [done|].
    unfold df_getitem. by rewrite Hclose. }
  unfold get_stock_data, Py.try_except. rewrite Htry.
  eexists _, (mkException "KeyError" "Close").
  split; [reflexivity|]. split; [reflexivity|].
  split_and!; by simplify_map_eq.
Qed.

(** The history of [Edge.no_close] has an [Open] column only. *)
Lemma get_stock_data_no_close_column_witness :
  exists d e,
    exc_type e = "KeyError"
    /\ get_stock_data Edge.world_no_close "TSLA" [] =
         (Return d, ["Error fetching stock data for TSLA: " +:+ str e])
    /\ d !! "price" = Some PyNone
    /\ d !! "error" = Some (PyStr (str e))
    /\ d !! "last_updated" = None.
Proof.
  apply (get_stock_data_no_close_column Edge.world_no_close "TSLA" [] Edge.no_close
           (mkDataFrame ["2025-01-02"] [("Open", [PyFloat 4643000053271134208])]));
    reflexivity.
Defined.

(** ** [get_news]: what a non-empty answer tells *)

(** X5.  A caller that gets an item knows the search went through: when
    [get_news] returns a list that is not empty, the search returned an
    answer whose [news_results] is a list of as many articles, the items
    are those of the articles in their order, and nothing was printed. *)
Theorem get_news_nonempty_search_succeeded (w : World) (query : string)
    (out out' : Py.stdout) (item : gmap string string)
    (items : list (gmap string string)) :
  get_news w query out = (Return (item :: items), out') ->
  exists articles,
    GoogleSearch_get_dict w (news_params w query) =
      Return (mkSearchResults (Some articles))
    /\ item :: items = map (news_item w) articles
    /\ length articles = S (length items)
    /\ out' = out.
Proof.
  unfold get_news, get_news_try, get_news_except, Py.try_except, Py.bind, Py.eval,
    Py.ret, Py.print.
  destruct (GoogleSearch_get_dict w (news_params w query)) as [[[articles|]]|e]; simpl;
    [|done..].
  intros [= Hitems <-]. exists articles. split; [done|]. split; [done|]. split; [|done].
  apply (f_equal length) in Hitems. rewrite length_map in Hitems. simpl in Hitems. lia.
Qed.

(** The three articles of the concrete world. *)
Lemma get_news_nonempty_search_succeeded_witness :
  exists articles,
    GoogleSearch_get_dict Demo.world (news_params Demo.world "Tesla") =
      Return (mkSearchResults (Some articles))
    /\ length articles = 3.
Proof.
  destruct (get_news_nonempty_search_succeeded Demo.world "Tesla" [] []
              (news_item Demo.world Demo.article_dated)
              [news_item Demo.world Demo.article_bare;
               news_item Demo.world Demo.article_recall] eq_refl)
    as (articles & Hsearch & _ & Hlength & _).
  exists articles. by split.
Defined.

(** ** [get_news]: one item *)

(** X6.  A key that is absent and a key that holds the default ([""] for a
    text, [[]] for the authors, an object without entries for the source)
    give the same item. *)
Theorem news_item_with_defaults (w : World) (article : Article) :
  news_item w (with_defaults article) = news_item w article.
Proof.
  destruct article as [title [[name authors]|] snippet description link_text date];
    reflexivity.
Qed.

Lemma py_isspace_blank : py_isspace " " = true.
Proof. reflexivity. Qed.

Lemma py_isspace_B : py_isspace "B" = false.
Proof. reflexivity. Qed.

Lemma string_app_assoc (a b c : string) : (a +:+ b) +:+ c = a +:+ b +:+ c.
Proof.
  induction a as [|x a IH]; [reflexivity|].
  change (String x ((a +:+ b) +:+ c) = String x (a +:+ b +:+ c)). by f_equal.
Qed.

Lemma string_app_nil_inv (a b : string) : a +:+ b = "" -> a = "" /\ b = "".
Proof.
  destruct a as [|x a]; [by split|].
  change (String x (a +:+ b) = "" -> String x a = "" /\ b = ""). discriminate.
Qed.

Lemma lstrip_head (s : string) (c : ascii) (rest : string) :
  lstrip s = String c rest -> py_isspace c = false.
Proof.
  induction s as [|a s IH]; simpl; [done|].
  destruct (py_isspace a) eqn:Ha; [exact IH|]. by intros [= <- _].
Qed.

Lemma rstrip_cons (c : ascii) (s : string) :
  py_isspace c = false -> rstrip (String c s) = String c (rstrip s).
Proof.
  intros Hc. simpl. destruct (rstrip s); [by rewrite Hc|done].
Qed.

Lemma rstrip_last (s init : string) (c : ascii) :
  rstrip s = init +:+ String c "" -> py_isspace c = false.
Proof.
  revert init. induction s as [|a s IH]; intros init; simpl.
  - by destruct init.
  - destruct (rstrip s) as [|x r] eqn:Hs.
    + destruct (py_isspace a) eqn:Ha; [by destruct init|].
      destruct init as [|y init]; simpl; [by intros [= <-]|].
      intros [= _ H]. by destruct init.
    + destruct init as [|y init]; simpl; [done|].
      intros [= _ H]. by apply (IH init).
Qed.

Lemma strip_trimmed (s : string) : trimmed (strip s).
Proof.
  unfold strip. split.
  - intros c rest H.
    destruct (lstrip s) as [|a t] eqn:Hl; [done|].
    pose proof (lstrip_head s a t Hl) as Ha.
    rewrite (rstrip_cons a t Ha) in H. by injection H as <- _.
  - intros init c H. by apply rstrip_last in H.
Qed.

(** X7.  The [title] and the [summary] of an item neither begin nor end
    with white space, whatever the article holds. *)
Theorem news_item_trimmed (w : World) (article : Article) :
  exists title summary,
    news_item w article !! "title" = Some title
    /\ news_item w article !! "summary" = Some summary
    /\ trimmed title /\ trimmed summary.
Proof.
  destruct (news_item_entries w article) as (Htitle & _ & Hsummary & _).
  eexists _, _. split; [exact Htitle|]. split; [exact Hsummary|].
  split; apply strip_trimmed.
Qed.

Lemma rstrip_app_nonempty (x y : string) :
  rstrip y <> "" -> rstrip (x +:+ y) = x +:+ rstrip y.
Proof.
  intros Hy. induction x as [|a x IH]; [reflexivity|].
  change (rstrip (String a (x +:+ y)) = String a (x +:+ rstrip y)).
  cbn [rstrip]. rewrite IH. destruct (x +:+ rstrip y) eqn:Hx; [|done].
  by apply string_app_nil_inv in Hx as [_ ?].
Qed.

(** X8.  When the source of an article names authors, the summary ends
    with the author line, "By" and the names joined by ", ", less any
    white space at its end; what comes before it is nothing, when the
    chosen text is blank, and otherwise the chosen text without its
    leading white space, and one blank. *)
Theorem news_item_summary_ends_with_authors (w : World) (article : Article) :
  article_authors article <> [] ->
  exists body,
    news_item w article !! "summary" =
      Some (body +:+ rstrip ("By " +:+ join ", " (article_authors article)))
    /\ ((strip (choose_summary (article_title article)
                  (default "" (art_snippet article))
                  (default "" (art_description article))
                  (default "" (art_link_text article))) = ""
         /\ body = "")
        \/ body = lstrip (choose_summary (article_title article)
                            (default "" (art_snippet article))
                            (default "" (art_description article))
                            (default "" (art_link_text article))) +:+ " ").
Proof.
  intros Hauthors.
  destruct (news_item_entries w article) as (_ & _ & Hsummary & _).
  rewrite Hsummary. fold (article_title article). fold (article_authors article).
  set (chosen := choose_summary _ _ _ _).
  destruct (article_authors article) as [|a1 authors] eqn:Ha; [done|].
  set (line := "By " +:+ join ", " (a1 :: authors)).
  assert (rstrip line <> "") as Hline.
  { subst line. change ("By " +:+ join ", " (a1 :: authors))
      with (String "B" ("y " +:+ join ", " (a1 :: authors))).
    by rewrite (rstrip_cons _ _ py_isspace_B). }
  assert (lstrip (" " +:+ line) = line) as Hblank.
  { subst line. change (" " +:+ "By " +:+ join ", " (a1 :: authors))
      with (String " " (String "B" ("y " +:+ join ", " (a1 :: authors)))).
    cbn [lstrip]. by rewrite py_isspace_blank, py_isspace_B. }
  unfold strip.
  destruct (lstrip_app chosen (" " +:+ line)) as [[Hempty Hl]|Hl]; rewrite Hl.
  - exists "". rewrite Hblank. split; [done|]. left. by rewrite Hempty.
  - exists (lstrip chosen +:+ " "). split; [|by right].
    rewrite <- string_app_assoc. by rewrite rstrip_app_nonempty.
Qed.

(** The first article of the concrete world has two authors. *)
Lemma news_item_summary_ends_with_authors_witness :
  exists body,
    news_item Demo.world Demo.article_dated !! "summary" =
      Some (body +:+ "By A. Reporter, B. Writer")
    /\ ((strip "Quarterly deliveries rose by a tenth." = "" /\ body = "")
        \/ body = "Quarterly deliveries rose by a tenth. ").
Proof.
  apply (news_item_summary_ends_with_authors Demo.world Demo.article_dated).
  discriminate.
Defined.

(** X9.  When no author is named and snippet, description and link text
    are all empty or absent, the summary is the title, as it stands in the
    [title] entry. *)
Theorem news_item_summary_is_title (w : World) (article : Article) :
  article_authors article = [] ->
  Forall (fun s => s = "") (article_texts article) ->
  news_item w article !! "summary" = news_item w article !! "title".
Proof.
  intros Hauthors Htexts.
  rewrite (news_item_summary_no_authors w article Hauthors).
  destruct (news_item_entries w article) as (-> & _).
  unfold article_texts in Htexts.
  apply Forall_cons in Htexts as [Hs Htexts].
  apply Forall_cons in Htexts as [Hd Htexts].
  apply Forall_cons in Htexts as [Hl _].
  rewrite Hs, Hd, Hl.
  change (choose_summary (strip (default "" (art_title article))) "" "" "")
    with (strip (default "" (art_title article))).
  by rewrite strip_idemp.
Qed.

(** The second article of the concrete world has a title and nothing
    else. *)
Lemma news_item_summary_is_title_witness :
  news_item Demo.world Demo.article_bare !! "summary" = Some "Tesla opens plant"
  /\ news_item Demo.world Demo.article_bare !! "title" = Some "Tesla opens plant".
Proof.
  split; [|reflexivity].
  exact (eq_trans
           (news_item_summary_is_title Demo.world Demo.article_bare eq_refl
              ltac:(repeat constructor))
           eq_refl).
Defined.

(** ** [get_news]: which text is chosen *)

(** [max(..., key=len)] returns the first element of greatest length:
    everything before it is strictly shorter. *)
Lemma max_by_len_first (best : string) (rest : list string) :
  exists pre post,
    best :: rest = (pre ++ max_by_len best rest :: post)%list
    /\ Forall (fun s => String.length s < String.length (max_by_len best rest)) pre
    /\ Forall (fun s => String.length s <= String.length (max_by_len best rest)) post.
Proof.
  revert best. induction rest as [|s rest IH]; intros best; cbn [max_by_len].
  - exists [], []. by repeat constructor.
  - destruct (Nat.ltb_spec (String.length best) (String.length s)) as [Hlt|Hge].
    + destruct (IH s) as (pre & post & Heq & Hpre & Hpost).
      exists (best :: pre), post. rewrite Heq. split; [done|]. split; [|done].
      constructor; [|done].
      destruct (max_by_len_spec s rest) as [_ Hall].
      apply Forall_cons in Hall as [Hs _]. lia.
    + destruct (IH best) as (pre & post & Heq & Hpre & Hpost).
      set (m := max_by_len best rest) in *. clearbody m.
      destruct pre as [|b pre]; simpl in Heq; injection Heq as Hb Hrest.
      * subst m rest. exists [], (s :: post). split; [done|].
        split; [done|]. constructor; [lia|done].
      * subst b rest. exists (best :: s :: pre), post.
        split; [done|]. split; [|done].
        apply Forall_cons in Hpre as [Hbest Hpre].
        constructor; [done|]. constructor; [lia|done].
Qed.

Lemma filter_split {A} (P : A -> Prop) `{forall x, Decision (P x)}
    (l pre post : list A) (x : A) :
  filter P l = (pre ++ x :: post)%list ->
  exists pre' post',
    l = (pre' ++ x :: post')%list
    /\ Forall (fun y => P y -> y ∈ pre) pre'
    /\ filter P post' = post.
Proof.
  revert pre. induction l as [|a l IH]; intros pre Hf.
  - rewrite filter_nil in Hf. by destruct pre.
  - rewrite filter_cons in Hf. destruct (decide (P a)) as [Ha|Ha].
    + destruct pre as [|b pre]; simpl in Hf; injection Hf as -> Hf.
      * exists [], l. split; [done|]. split; [constructor|done].
      * destruct (IH pre Hf) as (pre' & post' & -> & Hpre' & Hpost').
        exists (b :: pre'), post'. split; [done|]. split; [|done].
        constructor; [intros _; apply list_elem_of_here|].
        eapply Forall_impl; [exact Hpre'|]. intros y Hy Py.
        by apply list_elem_of_further, Hy.
    + destruct (IH pre Hf) as (pre' & post' & -> & Hpre' & Hpost').
      exists (a :: pre'), post'. split; [done|]. split; [|done].
      constructor; [done|exact Hpre'].
Qed.

(** X10.  Snippet, description and link text are preferred in that order:
    unless all three are empty, the chosen text is non-empty, every text
    before it in that order is strictly shorter, and no text after it is
    longer; a description wins over a snippet only by being longer. *)
Theorem choose_summary_first_longest (title snippet description link_text : string) :
  (Forall (fun s => s = "") [snippet; description; link_text]
   /\ choose_summary title snippet description link_text = title)
  \/ (exists pre post,
        [snippet; description; link_text] =
          (pre ++ choose_summary title snippet description link_text :: post)%list
        /\ choose_summary title snippet description link_text <> ""
        /\ Forall (fun s => String.length s <
                            String.length (choose_summary title snippet description link_text))
             pre
        /\ Forall (fun s => String.length s <=
                            String.length (choose_summary title snippet description link_text))
             post).
Proof.
  destruct (choose_summary_spec title snippet description link_text)
    as [Hempty|(Hin & Hne & _)]; [by left|].
  right. revert Hin Hne. unfold choose_summary.
  destruct (filter _ _) as [|s rest] eqn:Hf.
  { intros Hin Hne.
    assert (title ∈ filter (fun s => truthy s = true) [snippet; description; link_text])
      as Hin'.
    { apply list_elem_of_filter. split; [by apply truthy_nonempty|done]. }
    rewrite Hf in Hin'. by apply not_elem_of_nil in Hin'. }
  intros _ Hne.
  destruct (max_by_len_first s rest) as (pre & post & Heq & Hpre & Hpost).
  rewrite Heq in Hf.
  destruct (filter_split _ _ _ _ _ Hf) as (pre' & post' & Hl & Hpre' & Hpost').
  exists pre', post'. split; [exact Hl|]. split; [exact Hne|]. split.
  - apply Forall_forall. intros y Hy.
    destruct (decide (y = "")) as [->|Hy'].
    + destruct (max_by_len s rest); [done|simpl; lia].
    + rewrite Forall_forall in Hpre', Hpre.
      apply Hpre, Hpre'; [done|]. by apply truthy_nonempty.
  - apply Forall_forall. intros y Hy.
    destruct (decide (y = "")) as [->|Hy']; [simpl; lia|].
    rewrite Forall_forall in Hpost. apply Hpost. rewrite <- Hpost'.
    apply list_elem_of_filter. split; [by apply truthy_nonempty|done].
Qed.
